(** * The live-event pipeline of backend/main.py

    A shallow embedding of [ConversationManager], [WebSocketManager], the
    polling task and the webhook and WebSocket handlers of
    [src/backend/main.py], with the properties of the pipeline stated and
    settled against it. *)

From Stdlib Require Import ZArith QArith Qround Qabs List String Bool.
From Stdlib Require Import Lia DecimalString.
Import ListNotations.

Set Warnings "-register-all".

Local Open Scope string_scope.
Local Open Scope list_scope.
Local Open Scope Z_scope.

(** ** Python values

    The payloads are the objects [json] decodes: [None], booleans, integers,
    strings, lists and dicts.  A dict keeps its items in insertion order, as
    an association list with one entry per key.  Numbers with a fractional
    part are left out of the model: every number of a payload is a Python
    [int]. *)

Inductive value : Type :=
| VNone
| VBool (b : bool)
| VInt (z : Z)
| VStr (s : string)
| VList (l : list value)
| VDict (d : list (string * value)).

Definition dict := list (string * value).

(** Exceptions raised inside the program. *)
Inductive exn : Type :=
| TypeError
| KeyError
| IndexError
| OverflowError
| SendError
| HTTPException (status_code : Z) (detail : string).

(** The result of running a piece of code: it returns or it raises. *)
Inductive outcome (A : Type) : Type :=
| Ret (a : A)
| Raise (e : exn).
Arguments Ret {A} a.
Arguments Raise {A} e.

Module Py.

(** [key in d] *)
Fixpoint contains (d : dict) (key : string) : bool :=
  match d with
  | [] => false
  | (k, _) :: d' => if String.eqb k key then true else contains d' key
  end.

(** [d.get(key)] *)
Fixpoint lookup (d : dict) (key : string) : option value :=
  match d with
  | [] => None
  | (k, v) :: d' => if String.eqb k key then Some v else lookup d' key
  end.

(** [d.get(key, default)] *)
Definition get (d : dict) (key : string) (default : value) : value :=
  match lookup d key with
  | Some v => v
  | None => default
  end.

(** [d[key] = v]: an existing key keeps its place, a new one goes last. *)
Fixpoint setitem (d : dict) (key : string) (v : value) : dict :=
  match d with
  | [] => [(key, v)]
  | (k, x) :: d' =>
      if String.eqb k key then (k, v) :: d' else (k, x) :: setitem d' key v
  end.

(** Values with a hash: everything of a payload but lists and dicts. *)
Definition hashable (v : value) : bool :=
  match v with
  | VList _ | VDict _ => false
  | _ => true
  end.

(** The integer a bool or an int stands for in arithmetic and comparisons
    ([True == 1], [False == 0]). *)
Definition as_int (v : value) : option Z :=
  match v with
  | VInt z => Some z
  | VBool b => Some (if b then 1 else 0)
  | _ => None
  end.

(** [a == b] on hashable values. *)
Definition eqb (a b : value) : bool :=
  match a, b with
  | VNone, VNone => true
  | VStr s, VStr t => String.eqb s t
  | _, _ =>
      match as_int a, as_int b with
      | Some x, Some y => Z.eqb x y
      | _, _ => false
      end
  end.

(** [v in s] for a set [s], kept as the list of its elements. *)
Definition set_mem (v : value) (s : list value) : outcome bool :=
  if hashable v then Ret (existsb (eqb v) s) else Raise TypeError.

(** [str(n)] of an integer. *)
Definition str_int (n : Z) : string := NilZero.string_of_int (Z.to_int n).

(** [v > 0] *)
Definition gt0 (v : value) : outcome bool :=
  match as_int v with
  | Some z => Ret (0 <? z)
  | None => Raise TypeError
  end.

End Py.

(** ** Floating point

    A Python [float] is an IEEE 754 binary64 number.  The model keeps a
    finite float as the rational it denotes, in lowest terms, and rounds
    every operation to the nearest binary64 value, ties to even; a result
    beyond the binary64 range is the [OverflowError] CPython raises. *)

Module Float.

Local Open Scope Q_scope.

(** The nearest integer, ties to the even one. *)
Definition round_half_even (q : Q) : Z :=
  let f := Qfloor q in
  match Qcompare (q - inject_Z f) (1 # 2) with
  | Lt => f
  | Gt => (f + 1)%Z
  | Eq => if Z.even f then f else (f + 1)%Z
  end.

Definition pow2 (e : Z) : Q :=
  if (0 <=? e)%Z then inject_Z (2 ^ e) else 1 # Z.to_pos (2 ^ (- e)).

(** The exponent [e] of the binary64 grid around [a > 0]: the grid step is
    [2^e], with 53 bits of precision and the subnormal floor at [-1074]. *)
Definition exponent (a : Q) : Z :=
  let e := (Z.log2 (Qnum a) - Z.log2 (Zpos (Qden a)) - 52)%Z in
  let e := if Qle_bool (pow2 (e + 52)) a then e else (e - 1)%Z in
  Z.max e (-1074).

(** The nearest binary64 value of a rational, [None] out of range. *)
Definition of_Q (q : Q) : option Q :=
  match Qnum q with
  | Z0 => Some 0
  | _ =>
      let a := Qabs q in
      let e := exponent a in
      let r := inject_Z (round_half_even (a / pow2 e)) * pow2 e in
      if Qle_bool (pow2 1024) r then None
      else Some (Qred (if Qle_bool 0 q then r else - r))
  end.

(** [a / b] on integers with [b > 0]: the correctly rounded quotient. *)
Definition truediv (a b : Z) : outcome Q :=
  match of_Q (inject_Z a / inject_Z b) with
  | Some x => Ret x
  | None => Raise OverflowError
  end.

(** [round(x, 2)] on a float: the exact value of [x] is rounded to two
    decimals, ties to even, and the decimal is converted back to the
    nearest float. *)
Definition round2 (x : Q) : outcome Q :=
  match of_Q (inject_Z (round_half_even (x * 100)) / 100) with
  | Some y => Ret y
  | None => Raise OverflowError
  end.

End Float.

(** ** Events, statistics and messages *)

(** A moment of the wall clock, in microseconds: the resolution of
    [datetime].  [timedelta(minutes=2)] is [ttl] microseconds. *)
Definition time := Z.
Definition ttl : Z := 120000000.

(** The library functions the program calls and the model does not spell
    out: [datetime.isoformat()], [str(v)] of a value and [str(e)] of an
    exception. *)
Class Runtime : Type := {
  isoformat : time -> string;
  str : value -> string;
  str_exn : exn -> string
}.

(** The ["metadata"] dict of a conversation event. *)
Module Metadata.
Record t : Type := Build {
  prompt_name : value;
  tokens_used : value;
  latency_ms : value;
  model : value;
  status : value
}.
End Metadata.

(** The conversation event dict [process_webhook_data] builds.  The code
    stores ["expires_at"] as [isoformat()] of a datetime and reads it back
    with [datetime.fromisoformat], which inverts [isoformat]; the model
    keeps the datetime itself. *)
Module Event.
Record t : Type := Build {
  id : value;
  type : string;
  timestamp : value;
  user_message : value;
  ai_response : value;
  metadata : Metadata.t;
  expires_at : time
}.
End Event.

Definition event := Event.t.

(** [ConversationManager.stats].  [average_response_time] starts as the
    int [0] and is a float afterwards; the model keeps the number. *)
Module Stats.
Record t : Type := Build {
  total_conversations : Z;
  messages_per_minute : Z;
  average_response_time : Q;
  last_activity : option string
}.
End Stats.

Record ConversationManager : Type := {
  live_messages : list event;
  processed_request_ids : list value;
  stats : Stats.t;
  live_requests : list dict
}.

(** A WebSocket connection is known by a number. *)
Definition WebSocket := nat.

Record WebSocketManager : Type := {
  active_connections : list WebSocket
}.

(** What goes over a WebSocket: the object handed to [json.dumps], told
    apart by its ["type"]. *)
Inductive message : Type :=
| new_message (e : event)
| stats_update (data : Stats.t)
| live_messages_update (data : list event)
| heartbeat (timestamp : string)
| user_message (pending_conversation : dict).

(** One call of [send_text]: the connection, the message, and whether the
    message went out ([true]) or the call raised ([false]). *)
Definition send_record : Type := WebSocket * message * bool.

(** Where the coroutine of [websocket_endpoint] stands for a connection:
    not yet accepted, after the send of the first snapshot, in the heartbeat
    loop after the send of the first stats, or returned. *)
Inductive endpoint_state : Type :=
| Connecting
| SnapshotSent
| Serving
| Closed.

(** ** The state of the process

    The two global managers and the coroutines of the open WebSocket
    endpoints, with what the program finds around it: the readings
    [datetime.now()] will return, soonest first, which connections raise on
    [send_text], and the record of every [send_text] so far. *)
Record world : Type := {
  conversation_manager : ConversationManager;
  websocket_manager : WebSocketManager;
  endpoints : WebSocket -> endpoint_state;
  clock : nat -> time;
  send_fails : WebSocket -> bool;
  wire : list send_record
}.

Definition set_cm (f : ConversationManager -> ConversationManager) (w : world) : world :=
  {| conversation_manager := f (conversation_manager w);
     websocket_manager := websocket_manager w;
     endpoints := endpoints w;
     clock := clock w;
     send_fails := send_fails w;
     wire := wire w |}.

Definition set_connections (f : list WebSocket -> list WebSocket) (w : world) : world :=
  {| conversation_manager := conversation_manager w;
     websocket_manager := {| active_connections := f (active_connections (websocket_manager w)) |};
     endpoints := endpoints w;
     clock := clock w;
     send_fails := send_fails w;
     wire := wire w |}.

Definition set_endpoint (websocket : WebSocket) (st : endpoint_state) (w : world) : world :=
  {| conversation_manager := conversation_manager w;
     websocket_manager := websocket_manager w;
     endpoints := fun x => if Nat.eqb x websocket then st else endpoints w x;
     clock := clock w;
     send_fails := send_fails w;
     wire := wire w |}.

Definition tick_clock (w : world) : world :=
  {| conversation_manager := conversation_manager w;
     websocket_manager := websocket_manager w;
     endpoints := endpoints w;
     clock := fun n => clock w (S n);
     send_fails := send_fails w;
     wire := wire w |}.

Definition log_send (r : send_record) (w : world) : world :=
  {| conversation_manager := conversation_manager w;
     websocket_manager := websocket_manager w;
     endpoints := endpoints w;
     clock := clock w;
     send_fails := send_fails w;
     wire := wire w ++ [r] |}.

Definition set_live_messages (l : list event) (c : ConversationManager) : ConversationManager :=
  {| live_messages := l;
     processed_request_ids := processed_request_ids c;
     stats := stats c;
     live_requests := live_requests c |}.

Definition set_processed_request_ids (s : list value) (c : ConversationManager) : ConversationManager :=
  {| live_messages := live_messages c;
     processed_request_ids := s;
     stats := stats c;
     live_requests := live_requests c |}.

Definition set_stats (f : Stats.t -> Stats.t) (c : ConversationManager) : ConversationManager :=
  {| live_messages := live_messages c;
     processed_request_ids := processed_request_ids c;
     stats := f (stats c);
     live_requests := live_requests c |}.

Definition set_live_requests (l : list dict) (c : ConversationManager) : ConversationManager :=
  {| live_messages := live_messages c;
     processed_request_ids := processed_request_ids c;
     stats := stats c;
     live_requests := l |}.

(** ** The monad of the program: state and exceptions *)

Definition M (A : Type) : Type := world -> outcome A * world.

Definition ret {A} (a : A) : M A := fun w => (Ret a, w).

Definition raise {A} (e : exn) : M A := fun w => (Raise e, w).

Definition bind {A B} (m : M A) (k : A -> M B) : M B :=
  fun w =>
    match m w with
    | (Ret a, w') => k a w'
    | (Raise e, w') => (Raise e, w')
    end.

Declare Scope py_scope.
Delimit Scope py_scope with py.
Notation "x <- m ;; k" := (bind m (fun x => k))
  (at level 61, m at next level, right associativity) : py_scope.
Notation "m ;; k" := (bind m (fun _ => k))
  (at level 61, right associativity) : py_scope.
Local Open Scope py_scope.

(** [try: m except Exception as e: handler e] *)
Definition try_except {A} (m : M A) (handler : exn -> M A) : M A :=
  fun w =>
    match m w with
    | (Ret a, w') => (Ret a, w')
    | (Raise e, w') => handler e w'
    end.

Definition lift {A} (o : outcome A) : M A := fun w => (o, w).

Definition gets {A} (f : world -> A) : M A := fun w => (Ret (f w), w).

Definition modify (f : world -> world) : M unit := fun w => (Ret tt, f w).

(** [for x in l: body x] *)
Fixpoint for_each {A} (l : list A) (body : A -> M unit) : M unit :=
  match l with
  | [] => ret tt
  | x :: l' => body x ;; for_each l' body
  end.

(** A loop that appends to a local list: [acc] is the list so far. *)
Fixpoint for_collect {A B} (l : list A) (acc : list B) (body : list B -> A -> M (list B))
  : M (list B) :=
  match l with
  | [] => ret acc
  | x :: l' => acc' <- body acc x ;; for_collect l' acc' body
  end.

(** [datetime.now()]: the next reading of the clock. *)
Definition datetime_now : M time :=
  fun w => (Ret (clock w 0%nat), tick_clock w).

(** [int(t.timestamp() * 1000)]: the milliseconds of a reading. *)
Definition timestamp_ms (t : time) : Z := t / 1000.

(** ** Operators of Python on values, as [extract_ai_response] uses them *)

Module PyOps.

(** [len(v)] *)
Definition len (v : value) : outcome Z :=
  match v with
  | VStr s => Ret (Z.of_nat (String.length s))
  | VList l => Ret (Z.of_nat (List.length l))
  | VDict d => Ret (Z.of_nat (List.length d))
  | _ => Raise TypeError
  end.

(** [v[0]] *)
Definition getitem0 (v : value) : outcome value :=
  match v with
  | VStr EmptyString => Raise IndexError
  | VStr (String c _) => Ret (VStr (String c EmptyString))
  | VList [] => Raise IndexError
  | VList (x :: _) => Ret x
  | VDict _ => Raise KeyError
  | _ => Raise TypeError
  end.

Definition is_str (key : string) (v : value) : bool :=
  match v with
  | VStr s => String.eqb key s
  | _ => false
  end.

(** [key in v] for a string [key]: a key of a dict, an element of a list,
    a substring of a string. *)
Definition contains (key : string) (v : value) : outcome bool :=
  match v with
  | VDict d => Ret (Py.contains d key)
  | VList l => Ret (existsb (is_str key) l)
  | VStr s => Ret (match String.index 0 key s with Some _ => true | None => false end)
  | _ => Raise TypeError
  end.

(** [v[key]] for a string [key]. *)
Definition getitem (v : value) (key : string) : outcome value :=
  match v with
  | VDict d => match Py.lookup d key with Some x => Ret x | None => Raise KeyError end
  | _ => Raise TypeError
  end.

(** [v[:50]], for what it raises: strings and lists can be sliced. *)
Definition slice_ok (v : value) : outcome unit :=
  match v with
  | VStr _ | VList _ => Ret tt
  | _ => Raise TypeError
  end.

Definition obind {A B} (o : outcome A) (k : A -> outcome B) : outcome B :=
  match o with
  | Ret a => k a
  | Raise e => Raise e
  end.

End PyOps.

Section Program.

Context {RT : Runtime}.

(** ** ConversationManager *)

Definition ConversationManager_init : ConversationManager :=
  {| live_messages := [];
     processed_request_ids := [];
     stats := {| Stats.total_conversations := 0;
                 Stats.messages_per_minute := 0;
                 Stats.average_response_time := 0%Q;
                 Stats.last_activity := None |};
     live_requests := [] |}.

(** The body of [extract_ai_response] inside its [try]. *)
Definition extract_ai_response_body (response_data : value) : outcome value :=
  let after_dict :=
    match response_data with
    | VStr _ => Ret response_data
    | _ => Ret (VStr (str response_data))
    end in
  match response_data with
  | VDict d =>
      let direct :=
        if Py.contains d "content" then PyOps.getitem response_data "content"
        else if Py.contains d "message" then
          PyOps.obind (PyOps.getitem response_data "message") (fun m => Ret (VStr (str m)))
        else after_dict in
      if Py.contains d "choices" then
        PyOps.obind (PyOps.getitem response_data "choices") (fun choices =>
        PyOps.obind (PyOps.len choices) (fun n =>
        if 0 <? n then
          PyOps.obind (PyOps.getitem0 choices) (fun choice =>
          PyOps.obind (PyOps.contains "message" choice) (fun has_message =>
          PyOps.obind (if has_message
                       then PyOps.obind (PyOps.getitem choice "message")
                                        (PyOps.contains "content")
                       else Ret false) (fun has_content =>
          if has_content then
            PyOps.obind (PyOps.getitem choice "message") (fun m =>
            PyOps.getitem m "content")
          else
            PyOps.obind (PyOps.contains "text" choice) (fun has_text =>
            if has_text then PyOps.getitem choice "text" else direct))))
        else direct))
      else direct
  | _ => after_dict
  end.

(** [extract_ai_response]: any exception of the body becomes the fixed
    error text. *)
Definition extract_ai_response (response_data : value) : value :=
  match extract_ai_response_body response_data with
  | Ret v => v
  | Raise _ => VStr "Response parsing error"
  end.

(** The id of a request without ["id"], read from the clock at [t]. *)
Definition fallback_id (t : time) : value :=
  VStr ("live_" ++ Py.str_int (timestamp_ms t))%string.

(** The conversation event of a request: the dict literal of
    [process_webhook_data].  [t_timestamp] and [t_expires] are the clock
    readings of its two [datetime.now()] calls. *)
Definition conversation_event (request_id : value) (request_data : dict)
    (t_timestamp t_expires : time) : event :=
  {| Event.id := request_id;
     Event.type := "new_message";
     Event.timestamp := Py.get request_data "timestamp" (VStr (isoformat t_timestamp));
     Event.user_message := Py.get request_data "user_message" (VStr "");
     Event.ai_response := Py.get request_data "ai_response" (VStr "");
     Event.metadata :=
       {| Metadata.prompt_name := Py.get request_data "prompt_name" (VStr "unknown");
          Metadata.tokens_used := Py.get request_data "tokens_used" (VDict []);
          Metadata.latency_ms := Py.get request_data "latency_ms" (VInt 0);
          Metadata.model := Py.get request_data "model" (VStr "unknown");
          Metadata.status := Py.get request_data "status" (VStr "success") |};
     Event.expires_at := t_expires + ttl |}.

(** One turn of the loop of [process_webhook_data] over [live_requests]. *)
Definition process_request (new_conversations : list event) (request_data : dict)
  : M (list event) :=
  t_id <- datetime_now ;;
  let request_id := Py.get request_data "id" (fallback_id t_id) in
  ids <- gets (fun w => processed_request_ids (conversation_manager w)) ;;
  seen <- lift (Py.set_mem request_id ids) ;;
  if negb seen then
    t_timestamp <- datetime_now ;;
    t_expires <- datetime_now ;;
    let conversation_event :=
      conversation_event request_id request_data t_timestamp t_expires in
    modify (set_cm (fun c =>
      set_processed_request_ids (processed_request_ids c ++ [request_id]) c)) ;;
    ret (new_conversations ++ [conversation_event])
  else ret new_conversations.

Definition process_webhook_data_body : M (list event) :=
  requests <- gets (fun w => live_requests (conversation_manager w)) ;;
  match requests with
  | [] => ret []
  | _ :: _ =>
      new_conversations <- for_collect requests [] process_request ;;
      modify (set_cm (set_live_requests [])) ;;
      ret new_conversations
  end.

Definition process_webhook_data : M (list event) :=
  try_except process_webhook_data_body (fun _ => ret []).

(** [add_live_request] *)
Definition add_live_request (request_data : dict) : M unit :=
  modify (set_cm (fun c => set_live_requests (live_requests c ++ [request_data]) c)) ;;
  lift (PyOps.slice_ok (Py.get request_data "user_message" (VStr "No message"))).

(** The messages still alive at [now]: the list comprehension of
    [add_live_messages] and [get_live_messages]. *)
Definition unexpired (now : time) (l : list event) : list event :=
  filter (fun msg => now <? Event.expires_at msg) l.

(** [[lat for msg in messages if lat > 0]] over the latencies. *)
Fixpoint response_times_of (messages : list event) : outcome (list Z) :=
  match messages with
  | [] => Ret []
  | msg :: rest =>
      PyOps.obind (Py.gt0 (Metadata.latency_ms (Event.metadata msg))) (fun positive =>
      PyOps.obind (response_times_of rest) (fun l =>
      Ret (if positive
           then match Py.as_int (Metadata.latency_ms (Event.metadata msg)) with
                | Some z => z :: l
                | None => l
                end
           else l)))
  end.

Definition sum (l : list Z) : Z := fold_left Z.add l 0.

Definition set_total_conversations (n : Z) (s : Stats.t) : Stats.t :=
  {| Stats.total_conversations := n;
     Stats.messages_per_minute := Stats.messages_per_minute s;
     Stats.average_response_time := Stats.average_response_time s;
     Stats.last_activity := Stats.last_activity s |}.

Definition set_messages_per_minute (n : Z) (s : Stats.t) : Stats.t :=
  {| Stats.total_conversations := Stats.total_conversations s;
     Stats.messages_per_minute := n;
     Stats.average_response_time := Stats.average_response_time s;
     Stats.last_activity := Stats.last_activity s |}.

Definition set_average_response_time (x : Q) (s : Stats.t) : Stats.t :=
  {| Stats.total_conversations := Stats.total_conversations s;
     Stats.messages_per_minute := Stats.messages_per_minute s;
     Stats.average_response_time := x;
     Stats.last_activity := Stats.last_activity s |}.

Definition set_last_activity (t : string) (s : Stats.t) : Stats.t :=
  {| Stats.total_conversations := Stats.total_conversations s;
     Stats.messages_per_minute := Stats.messages_per_minute s;
     Stats.average_response_time := Stats.average_response_time s;
     Stats.last_activity := Some t |}.

Definition modify_stats (f : Stats.t -> Stats.t) : M unit :=
  modify (set_cm (set_stats f)).

(** [add_live_messages] *)
Definition add_live_messages (messages : list event) : M unit :=
  modify (set_cm (fun c => set_live_messages (live_messages c ++ messages) c)) ;;
  now <- datetime_now ;;
  modify (set_cm (fun c => set_live_messages (unexpired now (live_messages c)) c)) ;;
  modify_stats (fun s =>
    set_total_conversations
      (Stats.total_conversations s + Z.of_nat (List.length messages)) s) ;;
  match messages with
  | [] => ret tt
  | _ :: _ =>
      t <- datetime_now ;;
      modify_stats (set_last_activity (isoformat t)) ;;
      n <- gets (fun w => List.length (live_messages (conversation_manager w))) ;;
      modify_stats (set_messages_per_minute (Z.of_nat n)) ;;
      response_times <- lift (response_times_of messages) ;;
      match response_times with
      | [] => ret tt
      | _ :: _ =>
          mean <- lift (Float.truediv (sum response_times)
                                     (Z.of_nat (List.length response_times))) ;;
          rounded <- lift (Float.round2 mean) ;;
          modify_stats (set_average_response_time rounded)
      end
  end.

(** [get_live_messages] *)
Definition get_live_messages : M (list event) :=
  now <- datetime_now ;;
  modify (set_cm (fun c => set_live_messages (unexpired now (live_messages c)) c)) ;;
  gets (fun w => live_messages (conversation_manager w)).

(** [get_stats]: a copy of the stats dict. *)
Definition get_stats : M Stats.t :=
  gets (fun w => stats (conversation_manager w)).

(** ** WebSocketManager *)

(** [l.remove(x)]: the first occurrence goes. *)
Fixpoint remove_first (x : WebSocket) (l : list WebSocket) : list WebSocket :=
  match l with
  | [] => []
  | y :: l' => if Nat.eqb y x then l' else y :: remove_first x l'
  end.

Definition mem (x : WebSocket) (l : list WebSocket) : bool := existsb (Nat.eqb x) l.

(** [connect], once [websocket.accept()] has returned. *)
Definition connect (websocket : WebSocket) : M unit :=
  modify (set_connections (fun l => l ++ [websocket])).

(** [disconnect] *)
Definition disconnect (websocket : WebSocket) : M unit :=
  modify (set_connections (fun l =>
    if mem websocket l then remove_first websocket l else l)).

(** [websocket.send_text(json.dumps(message))]: the call is recorded on the
    wire, and raises on a connection that fails. *)
Definition send_text (websocket : WebSocket) (m : message) : M unit :=
  fun w =>
    if send_fails w websocket
    then (Raise SendError, log_send (websocket, m, false) w)
    else (Ret tt, log_send (websocket, m, true) w).

(** The first loop of [broadcast]: one [send_text] per connection, the
    connections whose send raised collected in [disconnected]. *)
Definition delivery_pass (m : message) (connections : list WebSocket)
  : M (list WebSocket) :=
  for_collect connections [] (fun disconnected connection =>
    try_except (send_text connection m ;; ret disconnected)
               (fun _ => ret (disconnected ++ [connection]))).

(** [broadcast].  No other task adds or removes a connection during the
    pass. *)
Definition broadcast (m : message) : M unit :=
  connections <- gets (fun w => active_connections (websocket_manager w)) ;;
  match connections with
  | [] => ret tt
  | _ :: _ =>
      disconnected <- delivery_pass m connections ;;
      for_each disconnected disconnect
  end.

(** ** The polling task *)

(** The body of the [try] of [processing_task], up to its sleep. *)
Definition processing_pass : M unit :=
  new_messages <- process_webhook_data ;;
  match new_messages with
  | [] => ret tt
  | _ :: _ =>
      add_live_messages new_messages ;;
      for_each new_messages (fun m => broadcast (new_message m)) ;;
      data <- get_stats ;;
      broadcast (stats_update data)
  end ;;
  current_messages <- get_live_messages ;;
  broadcast (live_messages_update current_messages).

(** One turn of the [while True] of [processing_task]. *)
Definition processing_task : M unit :=
  try_except processing_pass (fun _ => ret tt).

(** ** The HTTP handlers *)

Definition required_fields : list string := ["user_message"; "ai_response"].

(** [POST /webhook/conversation] *)
Definition webhook_conversation (request_data : dict) : M dict :=
  try_except
    (for_each required_fields (fun field =>
       if Py.contains request_data field then ret tt
       else raise (HTTPException 400 ("Missing required field: " ++ field)%string)) ;;
     request_data <-
       (if Py.contains request_data "timestamp" then ret request_data
        else t <- datetime_now ;;
             ret (Py.setitem request_data "timestamp" (VStr (isoformat t)))) ;;
     add_live_request request_data ;;
     ret [("status", VStr "success"); ("message", VStr "Conversation data received")])
    (fun e => raise (HTTPException 500 (str_exn e))).

(** [POST /webhook/user-message] *)
Definition webhook_user_message (message_data : dict) : M dict :=
  try_except
    (t_id <- datetime_now ;;
     t_timestamp <- datetime_now ;;
     let pending_conversation :=
       [("id", Py.get message_data "id"
                 (VStr ("pending_" ++ Py.str_int (timestamp_ms t_id))%string));
        ("timestamp", Py.get message_data "timestamp" (VStr (isoformat t_timestamp)));
        ("user_message", Py.get message_data "message" (VStr ""));
        ("ai_response", VStr "");
        ("status", VStr "pending");
        ("prompt_name", Py.get message_data "prompt_name" (VStr "unknown"));
        ("model", Py.get message_data "model" (VStr "unknown"))] in
     broadcast (user_message pending_conversation) ;;
     ret [("status", VStr "success"); ("message", VStr "User message received")])
    (fun e => raise (HTTPException 500 (str_exn e))).

(** [POST /webhook/ai-response] *)
Definition webhook_ai_response (response_data : dict) : M dict :=
  try_except
    (t_id <- datetime_now ;;
     t_timestamp <- datetime_now ;;
     let conversation_data :=
       [("id", Py.get response_data "id"
                 (VStr ("response_" ++ Py.str_int (timestamp_ms t_id))%string));
        ("timestamp", Py.get response_data "timestamp" (VStr (isoformat t_timestamp)));
        ("user_message", Py.get response_data "user_message" (VStr ""));
        ("ai_response", Py.get response_data "response" (VStr ""));
        ("prompt_name", Py.get response_data "prompt_name" (VStr "unknown"));
        ("model", Py.get response_data "model" (VStr "unknown"));
        ("latency_ms", Py.get response_data "latency_ms" (VInt 0));
        ("tokens_used", Py.get response_data "tokens_used" (VDict []));
        ("status", VStr "completed")] in
     add_live_request conversation_data ;;
     ret [("status", VStr "success"); ("message", VStr "AI response received")])
    (fun e => raise (HTTPException 500 (str_exn e))).

(** [GET /messages/live]: the messages of the reply. *)
Definition get_live_messages_endpoint : M (list event) :=
  try_except
    (messages <- get_live_messages ;;
     _ <- datetime_now ;;
     ret messages)
    (fun e => raise (HTTPException 500 (str_exn e))).

(** [GET /stats]: the stats of the reply.  The handler writes its two extra
    keys into the copy [get_stats] returned. *)
Definition get_stats_endpoint : M Stats.t :=
  try_except
    (stats <- get_stats ;;
     _ <- datetime_now ;;
     ret stats)
    (fun e => raise (HTTPException 500 (str_exn e))).

(** The status of the HTTP reply: an [HTTPException] carries its own, any
    other exception is a server error. *)
Definition http_status {A} (o : outcome A) : Z :=
  match o with
  | Ret _ => 200
  | Raise (HTTPException status_code _) => status_code
  | Raise _ => 500
  end.

(** ** The WebSocket endpoint

    [websocket_endpoint] is a coroutine: it runs without interruption from
    one [await] to the next, and at an [await] of a send or a sleep the other
    tasks of the event loop may run.  [websocket_endpoint_step] is the code
    from one such [await] to the next. *)
Definition websocket_endpoint_step (websocket : WebSocket) (st : endpoint_state)
  : M endpoint_state :=
  match st with
  | Connecting =>
      connect websocket ;;
      try_except
        (live_messages <- get_live_messages ;;
         send_text websocket (live_messages_update live_messages) ;;
         ret SnapshotSent)
        (fun _ => disconnect websocket ;; ret Closed)
  | SnapshotSent =>
      try_except
        (data <- get_stats ;;
         send_text websocket (stats_update data) ;;
         ret Serving)
        (fun _ => disconnect websocket ;; ret Closed)
  | Serving =>
      try_except
        (t <- datetime_now ;;
         send_text websocket (heartbeat (isoformat t)) ;;
         ret Serving)
        (fun _ => disconnect websocket ;; ret Closed)
  | Closed => ret Closed
  end.

Definition websocket_endpoint (websocket : WebSocket) : M unit :=
  st <- gets (fun w => endpoints w websocket) ;;
  st' <- websocket_endpoint_step websocket st ;;
  modify (set_endpoint websocket st').

(** ** Schedules

    What the event loop runs, one task at a time: a turn of the polling
    task, a request on one of the HTTP routes, or the next step of the
    endpoint of a connection.  A turn of the polling task and the handler
    of a request run here as one step each, with no other task in
    between. *)
Inductive action : Type :=
| Poll
| PostConversation (request_data : dict)
| PostUserMessage (message_data : dict)
| PostAIResponse (response_data : dict)
| GetLiveMessages
| GetStats
| Endpoint (websocket : WebSocket).

(** The state after an action; the reply of a request is dropped. *)
Definition perform (a : action) (w : world) : world :=
  match a with
  | Poll => snd (processing_task w)
  | PostConversation request_data => snd (webhook_conversation request_data w)
  | PostUserMessage message_data => snd (webhook_user_message message_data w)
  | PostAIResponse response_data => snd (webhook_ai_response response_data w)
  | GetLiveMessages => snd (get_live_messages_endpoint w)
  | GetStats => snd (get_stats_endpoint w)
  | Endpoint websocket => snd (websocket_endpoint websocket w)
  end.

Definition run (schedule : list action) (w : world) : world :=
  fold_left (fun w a => perform a w) schedule w.


(** The messages that went out to a connection in a part of the wire, and
    the messages a connection received so far, oldest first. *)
Definition deliveries (websocket : WebSocket) (l : list send_record) : list message :=
  map (fun r => snd (fst r))
      (filter (fun r : send_record => Nat.eqb (fst (fst r)) websocket && snd r) l).

Definition received (websocket : WebSocket) (w : world) : list message :=
  deliveries websocket (wire w).


End Program.

(** ** More of the program: the health check *)

Section Health.

Context {RT : Runtime}.

(** [validate_system]: its [try] only logs, so it returns [True]. *)
Definition validate_system : M bool := ret true.

(** [GET /health]: the status code and the body of the reply. *)
Definition health_check : M (Z * dict) :=
  try_except
    (is_valid <- validate_system ;;
     t <- datetime_now ;;
     n <- gets (fun w => List.length (active_connections (websocket_manager w))) ;;
     ret (200,
          [("status", VStr (if is_valid then "healthy" else "unhealthy"));
           ("system_validated", VBool is_valid);
           ("timestamp", VStr (isoformat t));
           ("active_websockets", VInt (Z.of_nat n))]))
    (fun e =>
       t <- datetime_now ;;
       ret (500,
            [("status", VStr "unhealthy"); ("error", VStr (str_exn e));
             ("timestamp", VStr (isoformat t))])).

End Health.

(** ** Sample inputs

    A runtime, clocks and worlds for the concrete scenarios. *)

Module Sample.

Definition runtime : Runtime :=
  {| isoformat := Py.str_int;
     str := fun _ => "<str>";
     str_exn := fun _ => "<exception>" |}.

(** A clock that starts in the middle of a millisecond and advances one
    microsecond per reading. *)
Definition clock_us : nat -> time := fun n => 1700000000500000 + Z.of_nat n.

Definition start (ck : nat -> time) (requests : list dict) : world :=
  {| conversation_manager :=
       set_live_requests requests ConversationManager_init;
     websocket_manager := {| active_connections := [] |};
     endpoints := fun _ => Connecting;
     clock := ck;
     send_fails := fun _ => false;
     wire := [] |}.

Definition hi_hello : dict :=
  [("user_message", VStr "hi"); ("ai_response", VStr "hello")].

Definition with_latency (request_id : string) (latency : Z) : dict :=
  [("id", VStr request_id); ("user_message", VStr "q"); ("ai_response", VStr "a");
   ("latency_ms", VInt latency)].

Definition how_are_you : dict :=
  [("user_message", VStr "how are you"); ("ai_response", VStr "fine")].

Definition choices_X : dict :=
  [("choices", VList [VDict [("message", VDict [("content", VStr "X")])]])].

(** The event of a request, built at the first readings of [clock_us]. *)
Definition event_of (request_data : dict) : event :=
  @conversation_event runtime (Py.get request_data "id" VNone) request_data
    (clock_us 1) (clock_us 2).





(** Three registered connections, the second of which raises on send. *)
Definition three_sockets : world :=
  {| conversation_manager := ConversationManager_init;
     websocket_manager := {| active_connections := [1%nat; 2%nat; 3%nat] |};
     endpoints := fun _ => Serving;
     clock := clock_us;
     send_fails := fun c => Nat.eqb c 2;
     wire := [] |}.

(** A connection opens while one event is live and a request waits in the
    queue; the polling task runs between the first two steps of its
    endpoint. *)
Definition interleaved : list action :=
  [PostConversation (with_latency "a" 100); Poll;
   PostConversation hi_hello; Endpoint 7%nat; Poll; Endpoint 7%nat].

End Sample.

(** ** What the properties speak of *)

Definition total_of (w : world) : Z :=
  Stats.total_conversations (stats (conversation_manager w)).

Definition average_of (w : world) : Q :=
  Stats.average_response_time (stats (conversation_manager w)).

Definition total_le (w w' : world) : Prop := total_of w <= total_of w'.

Definition ids_of (w : world) : list value :=
  processed_request_ids (conversation_manager w).

Definition live_of (w : world) : list event :=
  live_messages (conversation_manager w).

Definition requests_of (w : world) : list dict :=
  live_requests (conversation_manager w).

Definition connections_of (w : world) : list WebSocket :=
  active_connections (websocket_manager w).

(** [v] is in the set of processed ids. *)
Definition processed (v : value) (w : world) : bool :=
  existsb (Py.eqb v) (ids_of w).

(** The set of processed ids only grows. *)
Definition ids_grow (w w' : world) : Prop :=
  forall v, processed v w = true -> processed v w' = true.

(** The record of one call of [send_text] in a delivery pass. *)
Definition attempt (fails : WebSocket -> bool) (m : message) (c : WebSocket)
  : send_record :=
  (c, m, negb (fails c)).

(** The connections left once those of [disconnected] are removed, one
    [disconnect] each. *)
Definition drop (disconnected connections : list WebSocket) : list WebSocket :=
  fold_left (fun l c => if mem c l then remove_first c l else l)
            disconnected connections.

(** Two worlds that differ at most in the wire and the connections. *)
Definition same_but_sockets (w w' : world) : Prop :=
  conversation_manager w' = conversation_manager w
  /\ endpoints w' = endpoints w
  /\ clock w' = clock w
  /\ send_fails w' = send_fails w.







(** The latency of an event, and the latencies of a batch that count for
    the mean: those above 0, in the order of the batch. *)
Definition latency_of (msg : event) : value :=
  Metadata.latency_ms (Event.metadata msg).

Definition numeric (v : value) : bool :=
  match Py.as_int v with
  | Some _ => true
  | None => false
  end.


(** [round(sum(l) / len(l), 2)] *)
Definition mean_2dp (l : list Z) : outcome Q :=
  PyOps.obind (Float.truediv (sum l) (Z.of_nat (List.length l))) Float.round2.

(** The request [POST /webhook/conversation] enqueues: the request itself,
    with the time of receipt under ["timestamp"] when it has none. *)
Definition stamped {RT : Runtime} (request_data : dict) (t : time) : dict :=
  if Py.contains request_data "timestamp" then request_data
  else Py.setitem request_data "timestamp" (VStr (isoformat t)).


(** The ids of a list are pairwise different, as [==] of Python sees
    them. *)
Fixpoint distinct (l : list value) : bool :=
  match l with
  | [] => true
  | x :: r => negb (existsb (Py.eqb x) r) && distinct r
  end.

(** The live messages have pairwise different ids, all of them processed. *)
Definition live_ids_distinct (w : world) : Prop :=
  distinct (map Event.id (live_of w)) = true
  /\ forall e, In e (live_of w) -> processed (Event.id e) w = true.

(** A request whose ["id"] has no hash: a list or a dict. *)
Definition unhashable_id (request_data : dict) : bool :=
  match Py.lookup request_data "id" with
  | Some i => negb (Py.hashable i)
  | None => false
  end.

(** The queue holds a request whose id has no hash. *)
Definition poisoned (w : world) : Prop :=
  exists request_data,
    In request_data (requests_of w) /\ unhashable_id request_data = true.

(** From a poisoned queue: the queue keeps what it holds, the live messages
    get no new member, and the stats stay as they are. *)
Definition wedged (w w' : world) : Prop :=
  poisoned w ->
  poisoned w'
  /\ incl (requests_of w) (requests_of w')
  /\ incl (live_of w') (live_of w)
  /\ stats (conversation_manager w') = stats (conversation_manager w).


(** The sockets and the wire are the same. *)
Definition same_sockets (w w' : world) : Prop :=
  wire w' = wire w
  /\ websocket_manager w' = websocket_manager w
  /\ send_fails w' = send_fails w
  /\ endpoints w' = endpoints w.

(** The ids a batch admits: of the ids of its requests, in order, those not
    seen before, each once. *)
Fixpoint admitted_ids (seen : list value) (l : list value) : list value :=
  match l with
  | [] => []
  | x :: r =>
      if existsb (Py.eqb x) seen then admitted_ids seen r
      else x :: admitted_ids (seen ++ [x]) r
  end.

(** The processed ids that [total_conversations] does not count. *)
Definition uncounted (w : world) : Z :=
  Z.of_nat (List.length (ids_of w)) - total_of w.

(** A property of the world that holds afterwards when it held before. *)
Definition preserved (P : world -> Prop) (w w' : world) : Prop := P w -> P w'.

(** [keeps R m]: running [m] takes a world to one related to it by [R],
    whether [m] returns or raises. *)
Definition keeps {A} (R : world -> world -> Prop) (m : M A) : Prop :=
  forall w, R w (snd (m w)).

(** ** Further sample inputs *)

Module Cases.

(** One registered connection that sends well, and a queue of requests. *)
Definition one_socket (requests : list dict) : world :=
  {| conversation_manager :=
       set_live_requests requests ConversationManager_init;
     websocket_manager := {| active_connections := [1%nat] |};
     endpoints := fun _ => Serving;
     clock := Sample.clock_us;
     send_fails := fun _ => false;
     wire := [] |}.

(** A request whose [user_message] is a number. *)
Definition numeric_message : dict :=
  [("user_message", VInt 5); ("ai_response", VStr "a")].

(** A request whose latency is a string. *)
Definition bad_latency : dict :=
  [("id", VStr "x"); ("user_message", VStr "q"); ("ai_response", VStr "a");
   ("latency_ms", VStr "fast")].

(** A request whose id is a list. *)
Definition list_id : dict :=
  [("id", VList [VInt 1]); ("user_message", VStr "q"); ("ai_response", VStr "a")].

(** Three requests, two of them with the same id. *)
Definition a_a_b : list dict :=
  [Sample.with_latency "a" 100; Sample.with_latency "a" 0; Sample.with_latency "b" 5].

End Cases.

(** * Properties *)

(** ** Relations every step of the program keeps *)

Section Keeps.

Variable R : world -> world -> Prop.
Hypothesis R_refl : forall w, R w w.
Hypothesis R_trans : forall a b c, R a b -> R b c -> R a c.

Lemma keeps_ret {A} (a : A) : keeps R (ret a).
Proof. intros w. apply R_refl. Qed.

Lemma keeps_raise {A} (e : exn) : keeps R (@raise A e).
Proof. intros w. apply R_refl. Qed.

Lemma keeps_lift {A} (o : outcome A) : keeps R (lift o).
Proof. intros w. apply R_refl. Qed.

Lemma keeps_gets {A} (f : world -> A) : keeps R (gets f).
Proof. intros w. apply R_refl. Qed.

Lemma keeps_modify (f : world -> world) :
  (forall w, R w (f w)) -> keeps R (modify f).
Proof. intros H w. apply H. Qed.

Lemma keeps_bind {A B} (m : M A) (k : A -> M B) :
  keeps R m -> (forall a, keeps R (k a)) -> keeps R (bind m k).
Proof.
  intros Hm Hk w. unfold bind. specialize (Hm w).
  destruct (m w) as [[a | e] w']; simpl in *.
  - eapply R_trans; [exact Hm | apply Hk].
  - exact Hm.
Qed.

Lemma keeps_try_except {A} (m : M A) (handler : exn -> M A) :
  keeps R m -> (forall e, keeps R (handler e)) -> keeps R (try_except m handler).
Proof.
  intros Hm Hh w. unfold try_except. specialize (Hm w).
  destruct (m w) as [[a | e] w']; simpl in *.
  - exact Hm.
  - eapply R_trans; [exact Hm | apply Hh].
Qed.


Lemma keeps_after2 {A B C} (m : M A) (k : A -> M B) (k' : B -> M C)
    (handler : exn -> M C) w :
  (forall a, keeps R (k a)) -> (forall b, keeps R (k' b)) ->
  (forall e, keeps R (handler e)) ->
  R (snd (m w)) (snd (try_except (bind (bind m k) k') handler w)).
Proof.
  intros Hk Hk' Hh. unfold try_except, bind.
  destruct (m w) as [[a | e] w1]; simpl; [| apply Hh].
  specialize (Hk a w1). destruct (k a w1) as [[b | e] w2]; simpl in *.
  - specialize (Hk' b w2). destruct (k' b w2) as [[c | e] w3]; simpl in *.
    + eapply R_trans; eassumption.
    + eapply R_trans; [exact Hk |]. eapply R_trans; [exact Hk' | apply Hh].
  - eapply R_trans; [exact Hk | apply Hh].
Qed.

Lemma keeps_for_each {A} (l : list A) (body : A -> M unit) :
  (forall x, keeps R (body x)) -> keeps R (for_each l body).
Proof.
  intros Hb. induction l as [| x l IH]; simpl.
  - apply keeps_ret.
  - apply keeps_bind; auto.
Qed.

Lemma keeps_for_collect {A B} (l : list A) (body : list B -> A -> M (list B)) :
  (forall acc x, keeps R (body acc x)) ->
  forall acc, keeps R (for_collect l acc body).
Proof.
  intros Hb. induction l as [| x l IH]; intros acc; simpl.
  - apply keeps_ret.
  - apply keeps_bind; auto.
Qed.

End Keeps.

(** A relation that does not look at the live messages or the stats is kept
    by the two methods that write them. *)

Section KeepsManager.

Context {RT : Runtime}.
Variable R : world -> world -> Prop.
Hypothesis R_refl : forall w, R w w.
Hypothesis R_trans : forall a b c, R a b -> R b c -> R a c.

Hypothesis K_now : keeps R datetime_now.
Hypothesis K_live :
  forall f, keeps R (modify (set_cm (fun c => set_live_messages (f c) c))).
Hypothesis K_stats : forall f, keeps R (modify (set_cm (set_stats f))).

Ltac keeps_step :=
  match goal with
  | |- forall _, _ => intro
  | |- keeps _ (bind _ _) => apply keeps_bind; try assumption
  | |- keeps _ (ret _) => apply keeps_ret; assumption
  | |- keeps _ (lift _) => apply keeps_lift; assumption
  | |- keeps _ (gets _) => apply keeps_gets; assumption
  | |- keeps _ (match ?x with _ => _ end) => destruct x
  | |- keeps _ _ => first [ apply K_now | apply K_live | apply K_stats ]
  end.

Lemma keeps_add_live_messages messages : keeps R (add_live_messages messages).
Proof. unfold add_live_messages, modify_stats. repeat keeps_step. Qed.


End KeepsManager.

(** A relation the elementary steps keep is kept by every handler and
    task, and so along every schedule. *)

Section KeepsProgram.

Context {RT : Runtime}.
Variable R : world -> world -> Prop.
Hypothesis R_refl : forall w, R w w.
Hypothesis R_trans : forall a b c, R a b -> R b c -> R a c.

Hypothesis K_now : keeps R datetime_now.
Hypothesis K_send : forall websocket m, keeps R (send_text websocket m).
Hypothesis K_connections : forall f, keeps R (modify (set_connections f)).
Hypothesis K_endpoint : forall websocket st, keeps R (modify (set_endpoint websocket st)).
Hypothesis K_requests :
  forall f, keeps R (modify (set_cm (fun c => set_live_requests (f c) c))).
Hypothesis K_ids :
  forall v, keeps R (modify (set_cm (fun c =>
    set_processed_request_ids (processed_request_ids c ++ [v]) c))).
Hypothesis K_add : forall messages, keeps R (add_live_messages messages).
Hypothesis K_get : keeps R get_live_messages.

Ltac keeps_step :=
  match goal with
  | |- forall _, _ => intro
  | |- keeps _ (bind _ _) => apply keeps_bind; try assumption
  | |- keeps _ (try_except _ _) => apply keeps_try_except; try assumption
  | |- keeps _ (for_each _ _) => apply keeps_for_each; try assumption
  | |- keeps _ (for_collect _ _ _) => apply keeps_for_collect; try assumption
  | |- keeps _ (ret _) => apply keeps_ret; assumption
  | |- keeps _ (raise _) => apply keeps_raise; assumption
  | |- keeps _ (lift _) => apply keeps_lift; assumption
  | |- keeps _ (gets _) => apply keeps_gets; assumption
  | |- keeps _ (if ?b then _ else _) => destruct b
  | |- keeps _ (match ?x with _ => _ end) => destruct x
  | |- keeps _ _ =>
      first [ apply K_now | apply K_send | apply K_connections | apply K_endpoint
            | apply K_add | apply K_get
            | apply (K_requests (fun _ => [])) | apply K_requests | apply K_ids
            | solve [auto] ]
  end.

Ltac keeps_auto := repeat keeps_step.

Lemma keeps_process_webhook_data : keeps R process_webhook_data.
Proof.
  unfold process_webhook_data, process_webhook_data_body, process_request.
  keeps_auto.
Qed.

Lemma keeps_add_live_request request_data : keeps R (add_live_request request_data).
Proof. unfold add_live_request. keeps_auto. Qed.

Lemma keeps_get_stats : keeps R get_stats.
Proof. unfold get_stats. keeps_auto. Qed.

Lemma keeps_disconnect websocket : keeps R (disconnect websocket).
Proof. unfold disconnect. keeps_auto. Qed.

Lemma keeps_broadcast m : keeps R (broadcast m).
Proof.
  pose proof keeps_disconnect.
  unfold broadcast, delivery_pass. keeps_auto; auto.
Qed.

Lemma keeps_processing_task : keeps R processing_task.
Proof.
  pose proof keeps_process_webhook_data. pose proof keeps_broadcast.
  pose proof keeps_get_stats.
  unfold processing_task, processing_pass. keeps_auto; auto.
Qed.

Lemma keeps_webhook_conversation request_data :
  keeps R (webhook_conversation request_data).
Proof.
  pose proof keeps_add_live_request.
  unfold webhook_conversation. keeps_auto; auto.
Qed.

Lemma keeps_webhook_user_message message_data :
  keeps R (webhook_user_message message_data).
Proof.
  pose proof keeps_broadcast.
  unfold webhook_user_message. keeps_auto; auto.
Qed.

Lemma keeps_webhook_ai_response response_data :
  keeps R (webhook_ai_response response_data).
Proof.
  pose proof keeps_add_live_request.
  unfold webhook_ai_response. keeps_auto; auto.
Qed.

Lemma keeps_websocket_endpoint websocket : keeps R (websocket_endpoint websocket).
Proof.
  pose proof keeps_disconnect. pose proof keeps_get_stats.
  unfold websocket_endpoint, websocket_endpoint_step, connect. keeps_auto; auto.
Qed.

Lemma keeps_perform a : forall w, R w (perform a w).
Proof.
  intros w. destruct a; simpl.
  - apply keeps_processing_task.
  - apply keeps_webhook_conversation.
  - apply keeps_webhook_user_message.
  - apply keeps_webhook_ai_response.
  - unfold get_live_messages_endpoint.
    assert (K : keeps R (try_except
              (messages <- get_live_messages ;; _ <- datetime_now ;; ret messages)
              (fun e => raise (HTTPException 500 (str_exn e))))) by keeps_auto.
    apply K.
  - unfold get_stats_endpoint. pose proof keeps_get_stats as Hs.
    assert (K : keeps R (try_except
              (stats <- get_stats ;; _ <- datetime_now ;; ret stats)
              (fun e => raise (HTTPException 500 (str_exn e))))) by (keeps_auto; auto).
    apply K.
  - apply keeps_websocket_endpoint.
Qed.


(** The part of a turn after [add_live_messages], when the batch is not
    empty. *)
Lemma keeps_processing_task_admitted w w1 msg rest :
  process_webhook_data w = (Ret (msg :: rest), w1) ->
  R (snd (add_live_messages (msg :: rest) w1)) (perform Poll w).
Proof.
  intros E. pose proof keeps_broadcast. pose proof keeps_get_stats.
  change (perform Poll w) with (snd (processing_task w)).
  unfold processing_task, processing_pass.
  unfold try_except at 1, bind at 1. rewrite E.
  apply (keeps_after2 R R_trans (add_live_messages (msg :: rest))); keeps_auto; auto.
Qed.


End KeepsProgram.

(** ** Statistics *)

Section StatsProperties.

Context {RT : Runtime}.

Lemma add_live_messages_total messages w :
  total_of (snd (add_live_messages messages w))
  = total_of w + Z.of_nat (List.length messages).
Proof.
  unfold add_live_messages, total_of, bind, modify_stats, modify, datetime_now,
    gets, lift, ret.
  destruct messages as [| msg rest]; [reflexivity |].
  cbn -[response_times_of Float.truediv Float.round2 Z.of_nat].
  destruct (response_times_of (msg :: rest)) as [[| z l] | e]; try reflexivity.
  cbn -[Float.truediv Float.round2 Z.of_nat sum].
  destruct (Float.truediv _ _) as [mean | e]; try reflexivity.
  cbn -[Float.round2 Z.of_nat].
  destruct (Float.round2 mean); reflexivity.
Qed.

Lemma total_le_perform a w : total_le w (perform a w).
Proof.
  apply keeps_perform; unfold total_le.
  - intros; lia.
  - intros; lia.
  - intros w0; unfold total_of; simpl; lia.
  - intros ? ? w0; unfold send_text, total_of.
    destruct (send_fails w0 websocket); simpl; lia.
  - intros ? w0; unfold total_of; simpl; lia.
  - intros ? ? w0; unfold total_of; simpl; lia.
  - intros ? w0; unfold total_of; simpl; lia.
  - intros ? w0; unfold total_of; simpl; lia.
  - intros messages w0. fold (total_of w0).
    change (total_of w0 <= total_of (snd (add_live_messages messages w0))).
    rewrite add_live_messages_total. lia.
  - intros w0; unfold total_of; simpl; lia.
Qed.

(** C7.  [total_conversations] never decreases: [add_live_messages] adds
    the length of its batch to it, whether it returns or raises, every
    action of the event loop leaves it at least as large, and so does
    every schedule of actions. *)
Theorem total_conversations_monotone :
  (forall messages w,
      total_of (snd (add_live_messages messages w))
      = total_of w + Z.of_nat (List.length messages))
  /\ (forall a w, total_of w <= total_of (perform a w))
  /\ (forall schedule w, total_of w <= total_of (run schedule w)).
Proof.
  split; [exact add_live_messages_total |].
  split; [exact total_le_perform |].
  induction schedule as [| a schedule IH]; intros w; simpl.
  - lia.
  - etransitivity; [apply (total_le_perform a w) | apply IH].
Qed.


Lemma add_live_messages_average messages w :
  average_of (snd (add_live_messages messages w))
  = match response_times_of messages with
    | Ret (z :: l) =>
        match mean_2dp (z :: l) with
        | Ret x => x
        | Raise _ => average_of w
        end
    | _ => average_of w
    end.
Proof.
  unfold add_live_messages, average_of, mean_2dp, bind, modify_stats, modify,
    datetime_now, gets, lift, ret.
  destruct messages as [| msg rest]; [reflexivity |].
  cbn -[response_times_of Float.truediv Float.round2 Z.of_nat].
  destruct (response_times_of (msg :: rest)) as [[| z l] | e]; try reflexivity.
  cbn -[Float.truediv Float.round2 Z.of_nat sum].
  destruct (Float.truediv _ _) as [mean | e]; try reflexivity.
  cbn -[Float.round2 Z.of_nat].
  destruct (Float.round2 mean); reflexivity.
Qed.

Lemma response_times_of_not_numeric messages :
  forallb (fun msg => numeric (latency_of msg)) messages = false ->
  response_times_of messages = Raise TypeError.
Proof.
  unfold numeric, latency_of.
  induction messages as [| msg rest IH]; simpl; intros H; [discriminate |].
  unfold Py.gt0.
  destruct (Py.as_int (Metadata.latency_ms (Event.metadata msg))) as [z |];
    [| reflexivity].
  simpl in *. rewrite (IH H). reflexivity.
Qed.


End StatsProperties.

(** ** Admission *)

Section Admission.

Context {RT : Runtime}.

Lemma eqb_trans a b c :
  Py.eqb a b = true -> Py.eqb b c = true -> Py.eqb a c = true.
Proof.
  destruct a as [| [|] | x | s | l | d], b as [| [|] | y | t | l' | d'];
    cbn -[Z.eqb String.eqb]; try discriminate;
    destruct c as [| [|] | z | u | l'' | d'']; cbn -[Z.eqb String.eqb];
    try discriminate;
    rewrite ?String.eqb_eq, ?Z.eqb_eq; intros; subst;
    try reflexivity; try congruence; try lia.
Qed.

Lemma eqb_refl v : Py.hashable v = true -> Py.eqb v v = true.
Proof.
  destruct v as [| [|] | x | s | l | d]; cbn -[Z.eqb String.eqb];
    try discriminate; intros _;
    rewrite ?String.eqb_refl, ?Z.eqb_refl; reflexivity.
Qed.

(** What one turn of the loop of [process_webhook_data] does, by the three
    results of the membership test. *)
Lemma process_request_eq new_conversations request_data w :
  process_request new_conversations request_data w
  = let request_id := Py.get request_data "id" (fallback_id (clock w 0%nat)) in
    match Py.set_mem request_id (ids_of w) with
    | Raise e => (Raise e, tick_clock w)
    | Ret true => (Ret new_conversations, tick_clock w)
    | Ret false =>
        (Ret (new_conversations
              ++ [conversation_event request_id request_data
                    (clock w 1%nat) (clock w 2%nat)]),
         set_cm (fun c =>
                   set_processed_request_ids (processed_request_ids c ++ [request_id]) c)
                (tick_clock (tick_clock (tick_clock w))))
    end.
Proof.
  unfold process_request, bind, datetime_now, gets, lift, modify, ret, ids_of.
  cbn -[Py.set_mem Py.get fallback_id conversation_event].
  destruct (Py.set_mem _ _) as [[|] | e]; reflexivity.
Qed.

Lemma process_webhook_data_eq w :
  process_webhook_data w
  = match requests_of w with
    | [] => (Ret [], w)
    | _ :: _ =>
        match for_collect (requests_of w) [] process_request w with
        | (Ret new_conversations, w') =>
            (Ret new_conversations, set_cm (set_live_requests []) w')
        | (Raise _, w') => (Ret [], w')
        end
    end.
Proof.
  unfold process_webhook_data, process_webhook_data_body, try_except, bind, gets,
    requests_of.
  destruct (live_requests (conversation_manager w)) as [| r rs]; [reflexivity |].
  destruct (for_collect (r :: rs) [] process_request w) as [[new | e] w'];
    reflexivity.
Qed.

(** [process_webhook_data] returns in every state: its [except] takes every
    exception of the loop. *)
Lemma process_webhook_data_returns w :
  exists new_conversations, fst (process_webhook_data w) = Ret new_conversations.
Proof.
  rewrite process_webhook_data_eq.
  destruct (requests_of w); [eexists; reflexivity |].
  destruct (for_collect _ _ _ w) as [[new | e] w']; eexists; reflexivity.
Qed.

Lemma set_mem_processed v w :
  Py.hashable v = true -> Py.set_mem v (ids_of w) = Ret (processed v w).
Proof. intros H. unfold Py.set_mem, processed. rewrite H. reflexivity. Qed.





Lemma ids_grow_refl w : ids_grow w w.
Proof. intros v H. exact H. Qed.

Lemma ids_grow_trans a b c : ids_grow a b -> ids_grow b c -> ids_grow a c.
Proof. intros Hab Hbc v H. apply Hbc, Hab, H. Qed.

Lemma ids_grow_same w w' : ids_of w' = ids_of w -> ids_grow w w'.
Proof. intros E v H. unfold processed in *. rewrite E. exact H. Qed.


Lemma ids_grow_append v :
  keeps ids_grow (modify (set_cm (fun c =>
    set_processed_request_ids (processed_request_ids c ++ [v]) c))).
Proof.
  intros w x H. unfold processed, ids_of in *. cbn. rewrite existsb_app, H.
  reflexivity.
Qed.













(** Two requests without ["id"] in one batch, read from the clock within
    the same millisecond, get the same generated id, and the second is
    dropped as a duplicate of the first. *)
Lemma fallback_id_same_ms w rd1 rd2 :
  Py.lookup rd1 "id" = None ->
  Py.lookup rd2 "id" = None ->
  requests_of w = [rd1; rd2] ->
  timestamp_ms (clock w 3%nat) = timestamp_ms (clock w 0%nat) ->
  processed (fallback_id (clock w 0%nat)) w = false ->
  fst (process_webhook_data w)
  = Ret [conversation_event (fallback_id (clock w 0%nat)) rd1
           (clock w 1%nat) (clock w 2%nat)].
Proof.
  intros H1 H2 Hq Hms Hnew.
  rewrite process_webhook_data_eq, Hq.
  cbn [for_collect]. unfold bind at 1. rewrite process_request_eq.
  unfold Py.get. rewrite H1. cbn zeta.
  rewrite (set_mem_processed (fallback_id (clock w 0%nat)) w eq_refl), Hnew.
  unfold bind at 1. rewrite process_request_eq.
  unfold Py.get. rewrite H2. cbn zeta.
  cbn [clock tick_clock set_cm].
  unfold fallback_id at 1. rewrite Hms. fold (fallback_id (clock w 0%nat)).
  rewrite set_mem_processed by reflexivity.
  unfold processed at 1, ids_of at 1. cbn [conversation_manager set_cm tick_clock
    processed_request_ids set_processed_request_ids].
  rewrite existsb_app. cbn [existsb].
  rewrite (eqb_refl (fallback_id (clock w 0%nat)) eq_refl), orb_true_r.
  reflexivity.
Qed.

End Admission.

(** C9.  The generated ids are not unique within a batch: two requests
    without ["id"], drained in one batch while the clock advances by a
    microsecond per reading, both get the id ["live_1700000000500"], and
    only the first becomes an event. *)
Theorem fallback_ids_collide_in_batch :
  let w := Sample.start Sample.clock_us [Sample.hi_hello; Sample.how_are_you] in
  Py.lookup Sample.hi_hello "id" = None
  /\ Py.lookup Sample.how_are_you "id" = None
  /\ @fallback_id (clock w 3%nat) = @fallback_id (clock w 0%nat)
  /\ exists e,
      fst (@process_webhook_data Sample.runtime w) = Ret [e]
      /\ Event.id e = VStr "live_1700000000500"
      /\ Event.user_message e = VStr "hi".
Proof.
  cbv zeta. split; [reflexivity |]. split; [reflexivity |].
  split; [vm_compute; reflexivity |].
  eexists. split.
  - apply (@fallback_id_same_ms Sample.runtime _ Sample.hi_hello Sample.how_are_you);
      vm_compute; reflexivity.
  - split; vm_compute; reflexivity.
Qed.

(** ** Response extraction *)

Section Extraction.

Context {RT : Runtime}.

Lemma extract_unrecognized_dict d :
  Py.contains d "choices" = false ->
  Py.contains d "content" = false ->
  Py.contains d "message" = false ->
  extract_ai_response (VDict d) = VStr (str (VDict d)).
Proof.
  intros H1 H2 H3. unfold extract_ai_response, extract_ai_response_body.
  rewrite H1, H2, H3. reflexivity.
Qed.

(** A dict whose ["choices"] cannot be inspected is not stringified: the
    exception is caught and the fixed error text returned. *)
Lemma extract_malformed_choices n :
  extract_ai_response (VDict [("choices", VInt n)]) = VStr "Response parsing error".
Proof. reflexivity. Qed.

(** C6, as amended.  [extract_ai_response] tries the shapes in a fixed
    order and the first match wins: the content of the message of the first
    choice, then the direct content, then the message, stringified; a string
    is returned as it is; a dict with none of the three keys, and any value
    that is neither a dict nor a string, is stringified.
    [process_webhook_data] does not call it: the [ai_response] of an event
    is the ["ai_response"] of the request as it came, or the empty string. *)
Theorem extract_ai_response_shapes (X Y Z : string) (v : value) (d rd : dict)
    (rid : value) (t1 t2 : time) :
  Py.contains d "choices" = false ->
  Py.contains d "content" = false ->
  Py.contains d "message" = false ->
  extract_ai_response
    (VDict [("choices", VList [VDict [("message", VDict [("content", VStr X)])]])])
  = VStr X
  /\ extract_ai_response
       (VDict [("choices", VList [VDict [("message", VDict [("content", VStr X)])]]);
               ("content", VStr Y)])
     = VStr X
  /\ extract_ai_response (VDict [("content", VStr Y)]) = VStr Y
  /\ extract_ai_response (VDict [("content", VStr Y); ("message", v)]) = VStr Y
  /\ extract_ai_response (VDict [("message", v)]) = VStr (str v)
  /\ extract_ai_response (VStr Z) = VStr Z
  /\ extract_ai_response (VDict d) = VStr (str (VDict d))
  /\ extract_ai_response VNone = VStr (str VNone)
  /\ (forall b, extract_ai_response (VBool b) = VStr (str (VBool b)))
  /\ (forall n, extract_ai_response (VInt n) = VStr (str (VInt n)))
  /\ (forall l, extract_ai_response (VList l) = VStr (str (VList l)))
  /\ Event.ai_response (conversation_event rid rd t1 t2)
     = Py.get rd "ai_response" (VStr "").
Proof.
  intros H1 H2 H3.
  repeat split; try reflexivity.
  apply extract_unrecognized_dict; assumption.
Qed.

End Extraction.

(** ** The webhook *)

Section Webhook.

Context {RT : Runtime}.

(** C10.  A request to [POST /webhook/conversation] that lacks
    ["user_message"] or ["ai_response"] is answered with status 500, not
    400: the [HTTPException] with status 400 of the validation loop, raised
    for the first field missing, is caught by the [except Exception] of the
    handler and raised again with status 500, and nothing is enqueued. *)
Theorem webhook_conversation_missing_field w request_data :
  Py.contains request_data "user_message" = false
  \/ Py.contains request_data "ai_response" = false ->
  exists field,
    In field required_fields
    /\ Py.contains request_data field = false
    /\ webhook_conversation request_data w
       = (Raise (HTTPException 500
            (str_exn (HTTPException 400 ("Missing required field: " ++ field)%string))),
          w)
    /\ http_status (fst (webhook_conversation request_data w)) = 500.
Proof.
  intros H. unfold webhook_conversation, required_fields, try_except.
  cbn [for_each]. unfold bind at 1. unfold bind at 1.
  destruct (Py.contains request_data "user_message") eqn:Hu.
  - destruct H as [H | H]; [discriminate |].
    exists "ai_response". cbn [ret]. unfold bind at 1. rewrite H.
    cbn. auto 6.
  - exists "user_message". cbn. auto 6.
Qed.

End Webhook.

(** ** Time to live *)

Section TimeToLive.

Context {RT : Runtime}.


(** The live messages and the clock after [add_live_messages], on every
    path through it: the extended list swept at the first reading, and one
    or two readings taken. *)
Lemma add_live_messages_shape messages w :
  exists k,
    live_of (snd (add_live_messages messages w))
    = unexpired (clock w 0%nat) (live_of w ++ messages)
    /\ forall n, clock (snd (add_live_messages messages w)) n = clock w (S k + n)%nat.
Proof.
  unfold add_live_messages, live_of, bind, modify_stats, modify, datetime_now,
    gets, lift, ret.
  destruct messages as [| msg rest].
  { exists 0%nat. split; reflexivity. }
  exists 1%nat.
  cbn -[response_times_of Float.truediv Float.round2 Z.of_nat unexpired].
  destruct (response_times_of (msg :: rest)) as [[| z l] | e];
    try (split; reflexivity).
  cbn -[Float.truediv Float.round2 Z.of_nat sum unexpired].
  destruct (Float.truediv _ _) as [mean | e]; try (split; reflexivity).
  cbn -[Float.round2 Z.of_nat unexpired].
  destruct (Float.round2 mean); split; reflexivity.
Qed.

Lemma unexpired_In e now l :
  In e (unexpired now l) <-> In e l /\ now < Event.expires_at e.
Proof.
  unfold unexpired. rewrite filter_In, Z.ltb_lt. tauto.
Qed.

Section OneEvent.

Variable e : event.










(** What a read returns. *)
Lemma get_live_messages_endpoint_eq w :
  fst (get_live_messages_endpoint w)
  = Ret (unexpired (clock w 0%nat) (live_of w)).
Proof. reflexivity. Qed.


End OneEvent.

















End TimeToLive.

(** ** Broadcast *)

Section Broadcast.

Context {RT : Runtime}.

Lemma delivery_pass_spec m connections :
  forall disconnected w,
  exists w',
    for_collect connections disconnected
      (fun disconnected connection =>
         try_except (send_text connection m ;; ret disconnected)
                    (fun _ => ret (disconnected ++ [connection]))) w
    = (Ret (disconnected ++ filter (send_fails w) connections), w')
    /\ wire w' = wire w ++ map (attempt (send_fails w) m) connections
    /\ connections_of w' = connections_of w
    /\ same_but_sockets w w'.
Proof.
  induction connections as [| c cs IH]; intros acc w.
  - exists w. cbn. rewrite !app_nil_r. unfold same_but_sockets. auto 8.
  - cbn [for_collect]. unfold bind at 1, try_except at 1, bind at 1, send_text at 1.
    destruct (send_fails w c) eqn:Hc.
    + destruct (IH (acc ++ [c]) (log_send (c, m, false) w))
        as [w' [E [Hw [Hconn [H1 [H2 [H3 H4]]]]]]].
      exists w'. cbn [ret]. rewrite E. cbn [send_fails log_send filter map].
      rewrite Hc. split; [rewrite <- app_assoc; reflexivity |].
      split.
      * rewrite Hw. cbn [wire log_send send_fails]. rewrite <- app_assoc.
        change (attempt (send_fails w) m c) with (c, m, negb (send_fails w c)).
        rewrite Hc. reflexivity.
      * split; [exact Hconn |]. unfold same_but_sockets. auto.
    + destruct (IH acc (log_send (c, m, true) w))
        as [w' [E [Hw [Hconn [H1 [H2 [H3 H4]]]]]]].
      exists w'. cbn [ret]. rewrite E. cbn [send_fails log_send filter map].
      rewrite Hc. split; [reflexivity |].
      split.
      * rewrite Hw. cbn [wire log_send send_fails]. rewrite <- app_assoc.
        change (attempt (send_fails w) m c) with (c, m, negb (send_fails w c)).
        rewrite Hc. reflexivity.
      * split; [exact Hconn |]. unfold same_but_sockets. auto.
Qed.

Lemma disconnect_all_spec disconnected :
  forall w,
  exists w',
    for_each disconnected disconnect w = (Ret tt, w')
    /\ wire w' = wire w
    /\ connections_of w' = drop disconnected (connections_of w)
    /\ same_but_sockets w w'.
Proof.
  induction disconnected as [| c cs IH]; intros w.
  - exists w. unfold same_but_sockets. cbn. auto 8.
  - cbn [for_each]. unfold bind at 1, disconnect at 1, modify at 1.
    destruct (IH (set_connections
                    (fun l => if mem c l then remove_first c l else l) w))
      as [w' [E [Hw [Hconn [H1 [H2 [H3 H4]]]]]]].
    exists w'. rewrite E. split; [reflexivity |].
    split; [exact Hw |]. split; [exact Hconn |].
    unfold same_but_sockets. auto.
Qed.

Lemma drop_skip disconnected c :
  ~ In c disconnected ->
  forall l, drop disconnected (c :: l) = c :: drop disconnected l.
Proof.
  unfold drop. induction disconnected as [| d ds IH]; intros Hnot l;
    [reflexivity |].
  cbn [fold_left]. assert (Hd : d <> c) by (intros ->; apply Hnot; left; reflexivity).
  assert (Hds : ~ In c ds) by (intros H; apply Hnot; right; exact H).
  cbn [remove_first].
  change (mem d (c :: l)) with (Nat.eqb d c || mem d l)%bool.
  apply Nat.eqb_neq in Hd. rewrite Hd. cbn [orb].
  assert (Hcd : Nat.eqb c d = false) by (rewrite Nat.eqb_sym; exact Hd).
  rewrite Hcd.
  destruct (mem d l); apply IH; exact Hds.
Qed.

(** Dropping the failing connections of a list leaves the others, in
    order. *)
Lemma drop_failed fails connections :
  drop (filter fails connections) connections
  = filter (fun c => negb (fails c)) connections.
Proof.
  induction connections as [| c cs IH]; [reflexivity |].
  cbn [filter]. destruct (fails c) eqn:Hc; cbn [negb].
  - unfold drop. cbn [fold_left remove_first].
    change (mem c (c :: cs)) with (Nat.eqb c c || mem c cs)%bool.
    rewrite Nat.eqb_refl. cbn [orb]. exact IH.
  - rewrite drop_skip.
    + rewrite IH. reflexivity.
    + intros Hin. apply filter_In in Hin. destruct Hin as [_ Hin]. congruence.
Qed.

(** [broadcast] as a whole: one send per connection, in order, and the
    failing connections gone afterwards. *)
Lemma broadcast_spec m w :
  exists w',
    broadcast m w = (Ret tt, w')
    /\ wire w' = wire w ++ map (attempt (send_fails w) m) (connections_of w)
    /\ connections_of w'
       = filter (fun c => negb (send_fails w c)) (connections_of w)
    /\ same_but_sockets w w'.
Proof.
  unfold broadcast, bind at 1, gets at 1. fold (connections_of w).
  destruct (connections_of w) as [| c cs] eqn:Hcs.
  - exists w. cbn. rewrite app_nil_r. unfold same_but_sockets. auto 8.
  - unfold bind at 1, delivery_pass.
    destruct (delivery_pass_spec m (c :: cs) [] w)
      as [w1 [E1 [Hw1 [Hc1 [A1 [A2 [A3 A4]]]]]]].
    rewrite E1. cbn [app].
    destruct (disconnect_all_spec (filter (send_fails w) (c :: cs)) w1)
      as [w2 [E2 [Hw2 [Hc2 [B1 [B2 [B3 B4]]]]]]].
    exists w2. rewrite E2. split; [reflexivity |].
    split; [rewrite Hw2, Hw1; reflexivity |].
    split.
    + rewrite Hc2, Hc1, Hcs. apply drop_failed.
    + unfold same_but_sockets. repeat split; congruence.
Qed.


End Broadcast.

(** ** The WebSocket endpoint *)

Section CatchUp.

Context {RT : Runtime}.







Lemma deliveries_app websocket l l' :
  deliveries websocket (l ++ l')
  = deliveries websocket l ++ deliveries websocket l'.
Proof. unfold deliveries. rewrite filter_app, map_app. reflexivity. Qed.






End CatchUp.

(** * More properties of the program *)

(** ** Sequencing *)

Lemma bind_ret_eq {A B} (m : M A) (k : A -> M B) w a w' :
  m w = (Ret a, w') -> bind m k w = k a w'.
Proof. intros E. unfold bind. rewrite E. reflexivity. Qed.

Lemma bind_raise_eq {A B} (m : M A) (k : A -> M B) w e w' :
  m w = (Raise e, w') -> bind m k w = (Raise e, w').
Proof. intros E. unfold bind. rewrite E. reflexivity. Qed.

Lemma try_ret_eq {A} (m : M A) (handler : exn -> M A) w a w' :
  m w = (Ret a, w') -> try_except m handler w = (Ret a, w').
Proof. intros E. unfold try_except. rewrite E. reflexivity. Qed.

Lemma try_raise_eq {A} (m : M A) (handler : exn -> M A) w e w' :
  m w = (Raise e, w') -> try_except m handler w = handler e w'.
Proof. intros E. unfold try_except. rewrite E. reflexivity. Qed.

(** ** Registering and removing connections *)

Section Sockets.

Context {RT : Runtime}.

Lemma remove_first_absent x l : ~ In x l -> remove_first x l = l.
Proof.
  induction l as [| y l IH]; intros H; [reflexivity |].
  cbn [remove_first]. destruct (Nat.eqb_spec y x) as [-> | Hne].
  - exfalso. apply H. left. reflexivity.
  - rewrite IH; [reflexivity |]. intros Hin. apply H. right. exact Hin.
Qed.

Lemma remove_first_last x l : ~ In x l -> remove_first x (l ++ [x]) = l.
Proof.
  induction l as [| y l IH]; intros H; cbn [app remove_first].
  - rewrite Nat.eqb_refl. reflexivity.
  - destruct (Nat.eqb_spec y x) as [-> | Hne].
    + exfalso. apply H. left. reflexivity.
    + rewrite IH; [reflexivity |]. intros Hin. apply H. right. exact Hin.
Qed.

Lemma mem_In x l : mem x l = true <-> In x l.
Proof.
  unfold mem. rewrite existsb_exists. split.
  - intros [y [Hin Hy]]. apply Nat.eqb_eq in Hy. subst. exact Hin.
  - intros H. exists x. split; [exact H | apply Nat.eqb_refl].
Qed.

Lemma remove_first_NoDup x l : NoDup l -> ~ In x (remove_first x l).
Proof.
  induction 1 as [| y l Hy Hnd IH]; [intros [] |].
  cbn [remove_first]. destruct (Nat.eqb_spec y x) as [-> | Hne]; [exact Hy |].
  intros [H | H]; [exact (Hne H) | exact (IH H)].
Qed.

Lemma remove_first_incl x l y : In y (remove_first x l) -> In y l.
Proof.
  induction l as [| z l IH]; [intros [] |].
  cbn [remove_first]. destruct (Nat.eqb z x).
  - intros H. right. exact H.
  - intros [H | H]; [left; exact H | right; exact (IH H)].
Qed.

Lemma remove_first_other x l y : y <> x -> In y l -> In y (remove_first x l).
Proof.
  intros Hne. induction l as [| z l IH]; [intros [] |].
  cbn [remove_first]. destruct (Nat.eqb_spec z x) as [-> | Hzx].
  - intros [H | H]; [congruence | exact H].
  - intros [H | H]; [left; exact H | right; exact (IH H)].
Qed.

Lemma disconnect_connections websocket w :
  connections_of (snd (disconnect websocket w))
  = if mem websocket (connections_of w)
    then remove_first websocket (connections_of w)
    else connections_of w.
Proof. reflexivity. Qed.

Lemma connect_connections websocket w :
  connections_of (snd (connect websocket w)) = connections_of w ++ [websocket].
Proof. reflexivity. Qed.

(** X1.  [disconnect] removes a registered connection and only that one:
    with every connection registered once, the connection is gone
    afterwards and the others are registered as before; a connection that
    is not registered leaves the list as it is, so a second [disconnect]
    changes nothing; and [disconnect] after [connect] of a new connection
    gives the list back. *)
Theorem disconnect_removes_once websocket w :
  NoDup (connections_of w) ->
  let w1 := snd (disconnect websocket w) in
  ~ In websocket (connections_of w1)
  /\ (forall c, c <> websocket -> (In c (connections_of w1) <-> In c (connections_of w)))
  /\ (~ In websocket (connections_of w) -> connections_of w1 = connections_of w)
  /\ connections_of (snd (disconnect websocket w1)) = connections_of w1
  /\ (~ In websocket (connections_of w) ->
      connections_of (snd (disconnect websocket (snd (connect websocket w))))
      = connections_of w).
Proof.
  intros Hnd w1.
  assert (Hgone : ~ In websocket (connections_of w1)).
  { unfold w1. rewrite disconnect_connections.
    destruct (mem websocket (connections_of w)) eqn:Hm.
    - apply remove_first_NoDup. exact Hnd.
    - intros Hin. apply mem_In in Hin. congruence. }
  split; [exact Hgone |]. split.
  { intros c Hne. unfold w1. rewrite disconnect_connections.
    destruct (mem websocket (connections_of w)); [| tauto].
    split; [apply remove_first_incl | apply remove_first_other; exact Hne]. }
  split.
  { intros Hnot. unfold w1. rewrite disconnect_connections.
    destruct (mem websocket (connections_of w)) eqn:Hm; [| reflexivity].
    apply mem_In in Hm. contradiction. }
  split.
  { rewrite disconnect_connections.
    destruct (mem websocket (connections_of w1)) eqn:Hm; [| reflexivity].
    apply mem_In in Hm. contradiction. }
  intros Hnot. rewrite disconnect_connections, connect_connections.
  assert (Hm : mem websocket (connections_of w ++ [websocket]) = true).
  { apply mem_In, in_or_app. right. left. reflexivity. }
  rewrite Hm. apply remove_first_last. exact Hnot.
Qed.


End Sockets.

(** ** The other routes *)

Section Routes.

Context {RT : Runtime}.

Lemma lookup_setitem_same d key v : Py.lookup (Py.setitem d key v) key = Some v.
Proof.
  induction d as [| [k x] d IH]; cbn [Py.setitem Py.lookup].
  - rewrite String.eqb_refl. reflexivity.
  - destruct (String.eqb k key) eqn:E; cbn [Py.lookup]; rewrite E;
      [reflexivity | exact IH].
Qed.

Lemma lookup_setitem_other d key v key' :
  key' <> key -> Py.lookup (Py.setitem d key v) key' = Py.lookup d key'.
Proof.
  intros Hne. induction d as [| [k x] d IH]; cbn [Py.setitem Py.lookup].
  - destruct (String.eqb_spec key key'); [congruence | reflexivity].
  - destruct (String.eqb_spec k key) as [-> | Hk]; cbn [Py.lookup].
    + destruct (String.eqb_spec key key'); [congruence | reflexivity].
    + destruct (String.eqb k key'); [reflexivity | exact IH].
Qed.

Lemma contains_lookup d key :
  Py.contains d key = match Py.lookup d key with Some _ => true | None => false end.
Proof.
  induction d as [| [k x] d IH]; cbn [Py.contains Py.lookup]; [reflexivity |].
  destruct (String.eqb k key); [reflexivity | exact IH].
Qed.

Lemma webhook_conversation_eq w request_data :
  Py.contains request_data "user_message" = true ->
  Py.contains request_data "ai_response" = true ->
  webhook_conversation request_data w
  = let w1 := if Py.contains request_data "timestamp" then w else tick_clock w in
    let w2 := set_cm (fun c => set_live_requests
                 (live_requests c ++ [stamped request_data (clock w 0%nat)]) c) w1 in
    match PyOps.slice_ok
            (Py.get (stamped request_data (clock w 0%nat)) "user_message"
               (VStr "No message")) with
    | Ret _ => (Ret [("status", VStr "success");
                     ("message", VStr "Conversation data received")], w2)
    | Raise e => (Raise (HTTPException 500 (str_exn e)), w2)
    end.
Proof.
  intros Hu Ha. unfold webhook_conversation, required_fields, stamped, try_except.
  cbn [for_each]. unfold bind, ret, raise. rewrite Hu, Ha.
  unfold add_live_request, datetime_now, bind, modify, lift.
  destruct (Py.contains request_data "timestamp"); cbn zeta;
    destruct (PyOps.slice_ok _) as [[] | e]; reflexivity.
Qed.

Lemma stamped_lookup request_data t key :
  key <> "timestamp" ->
  Py.lookup (stamped request_data t) key = Py.lookup request_data key.
Proof.
  intros Hne. unfold stamped. destruct (Py.contains request_data "timestamp");
    [reflexivity | apply lookup_setitem_other; exact Hne].
Qed.

Lemma stamped_get request_data t key default :
  key <> "timestamp" ->
  Py.get (stamped request_data t) key default = Py.get request_data key default.
Proof. intros Hne. unfold Py.get. rewrite stamped_lookup by exact Hne. reflexivity. Qed.

Lemma stamped_timestamp request_data t :
  Py.lookup (stamped request_data t) "timestamp"
  = match Py.lookup request_data "timestamp" with
    | Some v => Some v
    | None => Some (VStr (isoformat t))
    end.
Proof.
  unfold stamped. rewrite contains_lookup.
  destruct (Py.lookup request_data "timestamp") eqn:E;
    [exact E | apply lookup_setitem_same].
Qed.

(** X3.  A request to [POST /webhook/conversation] that has both required
    fields, with a [user_message] that is a string or a list, is answered
    with status 200 and goes to the back of the queue; it is enqueued as it
    came, but for the time of receipt under ["timestamp"] when it had none;
    nothing else of the conversation manager changes. *)
Theorem webhook_conversation_accepts w request_data :
  Py.contains request_data "user_message" = true ->
  Py.contains request_data "ai_response" = true ->
  PyOps.slice_ok (Py.get request_data "user_message" (VStr "No message")) = Ret tt ->
  let w' := snd (webhook_conversation request_data w) in
  exists enqueued,
    http_status (fst (webhook_conversation request_data w)) = 200
    /\ requests_of w' = requests_of w ++ [enqueued]
    /\ (forall key, key <> "timestamp" ->
                    Py.lookup enqueued key = Py.lookup request_data key)
    /\ Py.lookup enqueued "timestamp"
       = match Py.lookup request_data "timestamp" with
         | Some v => Some v
         | None => Some (VStr (isoformat (clock w 0%nat)))
         end
    /\ live_of w' = live_of w
    /\ ids_of w' = ids_of w
    /\ stats (conversation_manager w') = stats (conversation_manager w).
Proof.
  intros Hu Ha Hs w'. unfold w'.
  rewrite (webhook_conversation_eq w request_data Hu Ha). cbn zeta.
  rewrite (stamped_get request_data (clock w 0%nat) "user_message"
             (VStr "No message")) by discriminate.
  rewrite Hs.
  exists (stamped request_data (clock w 0%nat)). cbn [fst snd http_status].
  split; [reflexivity |].
  split; [destruct (Py.contains request_data "timestamp"); reflexivity |].
  split; [intros key Hk; apply stamped_lookup; exact Hk |].
  split; [apply stamped_timestamp |].
  destruct (Py.contains request_data "timestamp"); repeat split; reflexivity.
Qed.

(** X4.  A request to [POST /webhook/conversation] that has both required
    fields, with a [user_message] that is neither a string nor a list (a
    number, a boolean, [null], an object), is answered with status 500, and
    is in the queue all the same: the log line after the append is what
    raises. *)
Theorem webhook_conversation_enqueues_then_fails w request_data e :
  Py.contains request_data "user_message" = true ->
  Py.contains request_data "ai_response" = true ->
  PyOps.slice_ok (Py.get request_data "user_message" (VStr "No message")) = Raise e ->
  let w' := snd (webhook_conversation request_data w) in
  http_status (fst (webhook_conversation request_data w)) = 500
  /\ exists enqueued,
       requests_of w' = requests_of w ++ [enqueued]
       /\ Py.lookup enqueued "user_message" = Py.lookup request_data "user_message"
       /\ Py.lookup enqueued "ai_response" = Py.lookup request_data "ai_response".
Proof.
  intros Hu Ha Hs w'. unfold w'.
  rewrite (webhook_conversation_eq w request_data Hu Ha). cbn zeta.
  rewrite (stamped_get request_data (clock w 0%nat) "user_message"
             (VStr "No message")) by discriminate.
  rewrite Hs.
  cbn [fst snd http_status]. split; [reflexivity |].
  exists (stamped request_data (clock w 0%nat)).
  split; [destruct (Py.contains request_data "timestamp"); reflexivity |].
  split; apply stamped_lookup; discriminate.
Qed.




(** X7.  [GET /health] is answered with status 200 and the status
    ["healthy"] in every state: [validate_system] checks nothing.  The reply
    counts the registered connections, and the handler changes nothing but
    the reading of the clock it takes. *)
Theorem health_check_always_healthy w :
  exists body,
    health_check w = (Ret (200, body), tick_clock w)
    /\ Py.lookup body "status" = Some (VStr "healthy")
    /\ Py.lookup body "system_validated" = Some (VBool true)
    /\ Py.lookup body "active_websockets"
       = Some (VInt (Z.of_nat (List.length (connections_of w)))).
Proof.
  eexists. split; [reflexivity |]. repeat split; reflexivity.
Qed.

End Routes.

(** ** What a turn of the polling task delivers *)

Section Delivery.

Context {RT : Runtime}.





Lemma same_sockets_refl w : same_sockets w w.
Proof. unfold same_sockets. auto. Qed.

Lemma same_sockets_trans a b c :
  same_sockets a b -> same_sockets b c -> same_sockets a c.
Proof.
  unfold same_sockets. intros [A1 [A2 [A3 A4]]] [B1 [B2 [B3 B4]]].
  repeat split; congruence.
Qed.

Ltac sockets_leaf :=
  first [ exact same_sockets_refl | exact same_sockets_trans
        | unfold keeps, same_sockets; intros; cbn; auto ].

Lemma process_webhook_data_same_sockets w :
  same_sockets w (snd (process_webhook_data w)).
Proof. apply keeps_process_webhook_data; sockets_leaf. Qed.

Lemma add_live_messages_same_sockets messages w :
  same_sockets w (snd (add_live_messages messages w)).
Proof. apply keeps_add_live_messages; sockets_leaf. Qed.



Lemma get_live_messages_eq w :
  get_live_messages w
  = (Ret (unexpired (clock w 0%nat) (live_of w)),
     set_cm (fun c => set_live_messages
                        (unexpired (clock w 0%nat) (live_messages c)) c)
            (tick_clock w)).
Proof. reflexivity. Qed.





(** X10.  A batch with a latency that is not a number aborts the turn of
    the polling task after the events were added: nothing is sent, to no
    connection, yet the events are among the live messages and counted in
    [total_conversations]; the average stays as it was. *)
Theorem poll_aborts_on_bad_latency w evs :
  fst (process_webhook_data w) = Ret evs ->
  forallb (fun msg => numeric (latency_of msg)) evs = false ->
  let w1 := snd (process_webhook_data w) in
  wire (perform Poll w) = wire w
  /\ connections_of (perform Poll w) = connections_of w
  /\ live_of (perform Poll w) = unexpired (clock w1 0%nat) (live_of w1 ++ evs)
  /\ total_of (perform Poll w) = total_of w + Z.of_nat (List.length evs)
  /\ average_of (perform Poll w) = average_of w.
Proof.
  intros Hevs Hbad w1.
  destruct (process_webhook_data w) as [r w1'] eqn:E. cbn [fst snd] in *.
  subst r. subst w1.
  destruct evs as [| msg rest]; [discriminate |].
  assert (Hraise : exists w2, add_live_messages (msg :: rest) w1' = (Raise TypeError, w2)).
  { unfold add_live_messages, bind, modify_stats, modify, datetime_now, gets, lift, ret.
    rewrite (response_times_of_not_numeric (msg :: rest) Hbad).
    eexists. reflexivity. }
  destruct Hraise as [w2 Ea].
  assert (Ep : perform Poll w = w2).
  { cbn [perform]. unfold processing_task.
    erewrite try_raise_eq; [reflexivity |].
    unfold processing_pass. rewrite (bind_ret_eq _ _ _ _ _ E).
    erewrite bind_raise_eq; [reflexivity |].
    erewrite bind_raise_eq; [reflexivity | exact Ea]. }
  pose proof (process_webhook_data_same_sockets w) as [A1 [A2 [A3 A4]]].
  rewrite E in A1, A2, A3, A4. cbn [snd] in *.
  pose proof (add_live_messages_same_sockets (msg :: rest) w1') as [B1 [B2 [B3 B4]]].
  rewrite Ea in B1, B2, B3, B4. cbn [snd] in *.
  destruct (add_live_messages_shape (msg :: rest) w1') as [k [Hl _]].
  pose proof (add_live_messages_total (msg :: rest) w1') as Ht.
  pose proof (add_live_messages_average (msg :: rest) w1') as Hav.
  rewrite Ea in Hl, Ht, Hav. cbn [snd] in *.
  rewrite (response_times_of_not_numeric (msg :: rest) Hbad) in Hav.
  assert (Hcm : stats (conversation_manager w1') = stats (conversation_manager w)).
  { pose proof (keeps_process_webhook_data
                  (fun a b => stats (conversation_manager b) = stats (conversation_manager a)))
      as K.
    specialize (K (fun _ => eq_refl)).
    assert (K' : stats (conversation_manager (snd (process_webhook_data w)))
                 = stats (conversation_manager w)).
    { apply K; try (unfold keeps; intros; reflexivity). intros a b c0 H1 H2. congruence. }
    rewrite E in K'. exact K'. }
  rewrite Ep. unfold connections_of. rewrite B1, A1, B2, A2, Hl, Ht, Hav.
  unfold total_of, average_of. rewrite Hcm. auto.
Qed.

End Delivery.

(** ** Relations every action keeps

    As [KeepsProgram], with a turn of the polling task and
    [add_live_request] taken as they are. *)

Section KeepsActions.

Context {RT : Runtime}.
Variable R : world -> world -> Prop.
Hypothesis R_refl : forall w, R w w.
Hypothesis R_trans : forall a b c, R a b -> R b c -> R a c.

Hypothesis K_now : keeps R datetime_now.
Hypothesis K_send : forall websocket m, keeps R (send_text websocket m).
Hypothesis K_connections : forall f, keeps R (modify (set_connections f)).
Hypothesis K_endpoint : forall websocket st, keeps R (modify (set_endpoint websocket st)).
Hypothesis K_enqueue : forall request_data, keeps R (add_live_request request_data).
Hypothesis K_get : keeps R get_live_messages.
Hypothesis K_poll : forall w, R w (perform Poll w).

Ltac actions_step :=
  match goal with
  | |- forall _, _ => intro
  | |- keeps _ (bind _ _) => apply keeps_bind; try assumption
  | |- keeps _ (try_except _ _) => apply keeps_try_except; try assumption
  | |- keeps _ (for_each _ _) => apply keeps_for_each; try assumption
  | |- keeps _ (ret _) => apply keeps_ret; assumption
  | |- keeps _ (raise _) => apply keeps_raise; assumption
  | |- keeps _ (lift _) => apply keeps_lift; assumption
  | |- keeps _ (gets _) => apply keeps_gets; assumption
  | |- keeps _ (broadcast _) => apply keeps_broadcast; assumption
  | |- keeps _ (disconnect _) => apply keeps_disconnect; assumption
  | |- keeps _ (if ?b then _ else _) => destruct b
  | |- keeps _ (match ?x with _ => _ end) => destruct x
  | |- keeps _ _ =>
      first [ apply K_now | apply K_send | apply K_connections | apply K_endpoint
            | apply K_enqueue | apply K_get ]
  end.

Lemma actions_perform a w : R w (perform a w).
Proof.
  destruct a; cbn [perform].
  - apply K_poll.
  - assert (K : keeps R (webhook_conversation request_data))
      by (unfold webhook_conversation; repeat actions_step).
    apply K.
  - assert (K : keeps R (webhook_user_message message_data))
      by (unfold webhook_user_message; repeat actions_step).
    apply K.
  - assert (K : keeps R (webhook_ai_response response_data))
      by (unfold webhook_ai_response; repeat actions_step).
    apply K.
  - assert (K : keeps R get_live_messages_endpoint)
      by (unfold get_live_messages_endpoint; repeat actions_step).
    apply K.
  - assert (K : keeps R get_stats_endpoint)
      by (unfold get_stats_endpoint, get_stats; repeat actions_step).
    apply K.
  - assert (K : keeps R (websocket_endpoint websocket))
      by (unfold websocket_endpoint, websocket_endpoint_step, connect, get_stats;
          repeat actions_step).
    apply K.
Qed.

Lemma actions_run schedule : forall w, R w (run schedule w).
Proof.
  induction schedule as [| a schedule IH]; intros w; cbn.
  - apply R_refl.
  - eapply R_trans; [apply actions_perform | apply IH].
Qed.

End KeepsActions.

(** ** A request whose id has no hash *)

Section Poison.

Context {RT : Runtime}.

(** The loop of [process_webhook_data] raises at the first request whose id
    has no hash, with the queue, the live messages and the stats as they
    were. *)
Lemma collect_poisoned requests :
  (exists r, In r requests /\ unhashable_id r = true) ->
  forall acc w,
  exists e w',
    for_collect requests acc process_request w = (Raise e, w')
    /\ requests_of w' = requests_of w
    /\ live_of w' = live_of w
    /\ stats (conversation_manager w') = stats (conversation_manager w).
Proof.
  induction requests as [| r rs IH]; intros [bad [Hin Hbad]] acc w;
    [destruct Hin |].
  cbn [for_collect]. unfold bind at 1. rewrite process_request_eq. cbn zeta.
  unfold Py.set_mem.
  destruct (Py.hashable (Py.get r "id" (fallback_id (clock w 0%nat)))) eqn:Hh.
  - assert (Htail : exists r', In r' rs /\ unhashable_id r' = true).
    { destruct Hin as [<- | Hin]; [| exists bad; auto].
      exfalso. unfold unhashable_id in Hbad. unfold Py.get in Hh.
      destruct (Py.lookup r "id") as [i |]; [| discriminate].
      rewrite Hh in Hbad. discriminate. }
    destruct (existsb _ (ids_of w)).
    + destruct (IH Htail acc (tick_clock w)) as [e [w' [E [H1 [H2 H3]]]]].
      exists e, w'. rewrite E. auto.
    + match goal with
      | |- context [for_collect rs ?a process_request ?x] =>
          destruct (IH Htail a x) as [e [w' [E [H1 [H2 H3]]]]]
      end.
      exists e, w'. rewrite E. auto.
  - exists TypeError, (tick_clock w). auto.
Qed.

Lemma process_webhook_data_poisoned w :
  poisoned w ->
  exists w1,
    process_webhook_data w = (Ret [], w1)
    /\ requests_of w1 = requests_of w
    /\ live_of w1 = live_of w
    /\ stats (conversation_manager w1) = stats (conversation_manager w).
Proof.
  intros Hp. rewrite process_webhook_data_eq.
  destruct (requests_of w) as [| r rs] eqn:Hq.
  - destruct Hp as [bad [Hin _]]. rewrite Hq in Hin. destruct Hin.
  - assert (Hbad : exists r', In r' (r :: rs) /\ unhashable_id r' = true).
    { destruct Hp as [bad H]. rewrite Hq in H. exists bad. exact H. }
    destruct (collect_poisoned (r :: rs) Hbad [] w) as [e [w' [E [H1 [H2 H3]]]]].
    rewrite E. exists w'. rewrite <- Hq. auto.
Qed.

(** The conversation manager after a turn of the polling task that finds
    nothing new. *)
Lemma poll_no_news_manager w w1 :
  process_webhook_data w = (Ret [], w1) ->
  conversation_manager (perform Poll w)
  = set_live_messages (unexpired (clock w1 0%nat) (live_of w1))
                      (conversation_manager w1).
Proof.
  intros E. cbn [perform]. unfold processing_task, processing_pass.
  destruct (broadcast_spec
              (live_messages_update (unexpired (clock w1 0%nat) (live_of w1)))
              (set_cm (fun c => set_live_messages
                                  (unexpired (clock w1 0%nat) (live_messages c)) c)
                      (tick_clock w1)))
    as [w2 [Eb [_ [_ [Hcm _]]]]].
  assert (Epass : processing_pass w = (Ret tt, w2)).
  { unfold processing_pass. rewrite (bind_ret_eq _ _ _ _ _ E).
    erewrite bind_ret_eq; [| reflexivity].
    rewrite (bind_ret_eq _ _ _ _ _ (get_live_messages_eq w1)). exact Eb. }
  unfold processing_pass in Epass. rewrite (try_ret_eq _ _ _ _ _ Epass).
  cbn [snd]. rewrite Hcm. reflexivity.
Qed.

Lemma wedged_refl w : wedged w w.
Proof. intros H. repeat split; auto using incl_refl. Qed.

Lemma wedged_trans a b c : wedged a b -> wedged b c -> wedged a c.
Proof.
  intros Hab Hbc Ha. destruct (Hab Ha) as [Hb [A1 [A2 A3]]].
  destruct (Hbc Hb) as [Hc [B1 [B2 B3]]].
  split; [exact Hc |]. split; [eapply incl_tran; eassumption |].
  split; [eapply incl_tran; eassumption | congruence].
Qed.

Lemma wedged_same w w' :
  conversation_manager w' = conversation_manager w -> wedged w w'.
Proof.
  intros E H. unfold poisoned, requests_of, live_of in *. rewrite E.
  repeat split; auto using incl_refl.
Qed.

Lemma wedged_send websocket m : keeps wedged (send_text websocket m).
Proof.
  intros w. unfold send_text. destruct (send_fails w websocket);
    apply wedged_same; reflexivity.
Qed.

Lemma wedged_enqueue request_data : keeps wedged (add_live_request request_data).
Proof.
  intros w [bad [Hin Hbad]].
  unfold add_live_request, bind, modify, lift.
  destruct (PyOps.slice_ok _) as [[] | e]; cbn [snd];
    (split; [exists bad; split; [| exact Hbad];
             unfold requests_of; cbn; apply in_or_app; left; exact Hin |]);
    (split; [unfold requests_of; cbn; apply incl_appl, incl_refl |]);
    (split; [apply incl_refl | reflexivity]).
Qed.

Lemma wedged_get : keeps wedged get_live_messages.
Proof.
  intros w H. rewrite get_live_messages_eq. cbn [snd].
  split; [exact H |]. split; [apply incl_refl |].
  split; [| reflexivity].
  unfold live_of, unexpired. cbn. apply incl_filter.
Qed.

Lemma wedged_poll w : wedged w (perform Poll w).
Proof.
  intros Hp. destruct (process_webhook_data_poisoned w Hp) as [w1 [E [H1 [H2 H3]]]].
  pose proof (poll_no_news_manager w w1 E) as Hcm.
  unfold poisoned, requests_of, live_of in *. rewrite Hcm. cbn.
  rewrite H1, H2, H3.
  split; [exact Hp |]. split; [apply incl_refl |].
  split; [apply incl_filter | reflexivity].
Qed.

Lemma wedged_run schedule w : wedged w (run schedule w).
Proof.
  apply actions_run;
    first [ exact wedged_refl | exact wedged_trans | exact wedged_send
          | exact wedged_enqueue | exact wedged_get | exact wedged_poll
          | unfold keeps; intros; apply wedged_same; reflexivity ].
Qed.

(** X11.  One request to [POST /webhook/conversation] whose ["id"] is a
    list or an object stops admission for good.  The request is enqueued;
    from then on, whatever the event loop runs, every turn of the polling
    task raises at that request and gives up its batch: the queue keeps
    everything it holds and is never cleared, no message is added to the
    live messages, and the stats never change. *)
Theorem unhashable_id_stops_admission w request_data schedule :
  Py.contains request_data "user_message" = true ->
  Py.contains request_data "ai_response" = true ->
  unhashable_id request_data = true ->
  let w1 := perform (PostConversation request_data) w in
  let w2 := run schedule w1 in
  (exists enqueued, In enqueued (requests_of w1) /\ unhashable_id enqueued = true)
  /\ incl (requests_of w1) (requests_of w2)
  /\ incl (live_of w2) (live_of w)
  /\ stats (conversation_manager w2) = stats (conversation_manager w)
  /\ fst (process_webhook_data w2) = Ret [].
Proof.
  intros Hu Ha Hbad w1 w2.
  assert (Hw1 : exists enqueued,
             requests_of w1 = requests_of w ++ [enqueued]
             /\ unhashable_id enqueued = true
             /\ live_of w1 = live_of w
             /\ stats (conversation_manager w1) = stats (conversation_manager w)).
  { unfold w1. cbn [perform].
    rewrite (webhook_conversation_eq w request_data Hu Ha). cbn zeta.
    exists (stamped request_data (clock w 0%nat)).
    assert (Hs : unhashable_id (stamped request_data (clock w 0%nat)) = true).
    { unfold unhashable_id. rewrite stamped_lookup by discriminate. exact Hbad. }
    destruct (PyOps.slice_ok _); cbn [snd];
      destruct (Py.contains request_data "timestamp"); auto. }
  destruct Hw1 as [enqueued [Hq [Hs [Hl Hst]]]].
  assert (Hp : poisoned w1).
  { exists enqueued. split; [| exact Hs]. rewrite Hq. apply in_or_app.
    right. left. reflexivity. }
  destruct (wedged_run schedule w1 Hp) as [Hp2 [H1 [H2 H3]]].
  fold w2 in Hp2, H1, H2, H3.
  split; [exists enqueued; split; [| exact Hs]; rewrite Hq; apply in_or_app;
          right; left; reflexivity |].
  split; [exact H1 |]. split; [rewrite <- Hl; exact H2 |].
  split; [congruence |].
  destruct (process_webhook_data_poisoned w2 Hp2) as [w3 [E _]].
  rewrite E. reflexivity.
Qed.

End Poison.

(** ** The ids of the live messages *)

Section LiveIds.

Context {RT : Runtime}.

Lemma eqb_sym a b : Py.eqb a b = Py.eqb b a.
Proof.
  destruct a as [| [|] | x | s | l | d], b as [| [|] | y | t | l' | d'];
    cbn -[Z.eqb String.eqb]; try reflexivity;
    first [apply Z.eqb_sym | apply String.eqb_sym].
Qed.

Lemma existsb_eqb_trans x y l :
  Py.eqb x y = true -> existsb (Py.eqb y) l = true -> existsb (Py.eqb x) l = true.
Proof.
  intros Hxy H. apply existsb_exists in H. destruct H as [z [Hin Hz]].
  apply existsb_exists. exists z. split; [exact Hin |].
  eapply eqb_trans; eassumption.
Qed.

Lemma distinct_app a b :
  distinct (a ++ b) = true <->
  distinct a = true /\ distinct b = true
  /\ forall x, In x a -> existsb (Py.eqb x) b = false.
Proof.
  induction a as [| x a IH]; cbn [app distinct].
  - split; [intros H; repeat split; [exact H | intros ? []] | tauto].
  - rewrite andb_true_iff, negb_true_iff, existsb_app, orb_false_iff, IH,
      andb_true_iff, negb_true_iff.
    split.
    + intros [[H1 H2] [H3 [H4 H5]]]. repeat split; try assumption.
      intros y [<- | Hy]; [exact H2 | exact (H5 y Hy)].
    + intros [[H1 H3] [H4 H5]]. repeat split; try assumption.
      * apply H5. left. reflexivity.
      * intros y Hy. apply H5. right. exact Hy.
Qed.

Lemma existsb_ids_filter x (p : event -> bool) l :
  existsb (Py.eqb x) (map Event.id (filter p l)) = true ->
  existsb (Py.eqb x) (map Event.id l) = true.
Proof.
  rewrite !existsb_exists. intros [y [Hin Hy]]. exists y. split; [| exact Hy].
  apply in_map_iff in Hin. destruct Hin as [e [<- He]].
  apply in_map. apply filter_In in He. tauto.
Qed.

Lemma distinct_filter (p : event -> bool) l :
  distinct (map Event.id l) = true -> distinct (map Event.id (filter p l)) = true.
Proof.
  induction l as [| e l IH]; [reflexivity |].
  cbn [map distinct filter]. rewrite andb_true_iff, negb_true_iff.
  intros [H1 H2]. destruct (p e); [| exact (IH H2)].
  cbn [map distinct]. rewrite andb_true_iff, negb_true_iff.
  split; [| exact (IH H2)].
  destruct (existsb (Py.eqb (Event.id e)) (map Event.id (filter p l))) eqn:E;
    [| reflexivity].
  apply existsb_ids_filter in E. congruence.
Qed.

(** The loop of [process_webhook_data]: the events it gathers have ids that
    are pairwise different, processed by now, and new to the set [w0]
    started with. *)
Lemma collect_distinct w0 requests :
  forall acc w evs w',
    ids_grow w0 w ->
    distinct (map Event.id acc) = true ->
    (forall e, In e acc -> processed (Event.id e) w = true) ->
    (forall e, In e acc -> processed (Event.id e) w0 = false) ->
    for_collect requests acc process_request w = (Ret evs, w') ->
    ids_grow w0 w'
    /\ live_of w' = live_of w
    /\ distinct (map Event.id evs) = true
    /\ (forall e, In e evs -> processed (Event.id e) w' = true)
    /\ (forall e, In e evs -> processed (Event.id e) w0 = false).
Proof.
  induction requests as [| r rs IH]; intros acc w evs w' Hg Hd Hp Hn Hrun.
  - cbn in Hrun. unfold ret in Hrun. inversion Hrun; subst. auto.
  - cbn [for_collect] in Hrun. unfold bind at 1 in Hrun.
    rewrite process_request_eq in Hrun. cbn zeta in Hrun.
    set (rid := Py.get r "id" (fallback_id (clock w 0%nat))) in *.
    unfold Py.set_mem in Hrun.
    destruct (Py.hashable rid) eqn:Hh; [| discriminate].
    fold (processed rid w) in Hrun.
    destruct (processed rid w) eqn:Hseen.
    + apply (IH acc (tick_clock w) evs w'); auto.
    + match type of Hrun with
      | for_collect rs ?a process_request ?x = _ =>
          destruct (IH a x evs w') as [G1 [G2 G3]]; auto
      end.
      * intros v Hv. unfold processed, ids_of. cbn. rewrite existsb_app.
        apply Hg in Hv. unfold processed, ids_of in Hv. rewrite Hv. reflexivity.
      * rewrite map_app. apply distinct_app. split; [exact Hd |].
        split; [reflexivity |].
        intros x Hx. cbn [map existsb Event.id conversation_event].
        rewrite orb_false_r.
        destruct (Py.eqb x rid) eqn:E; [| reflexivity].
        apply in_map_iff in Hx. destruct Hx as [e [<- He]].
        specialize (Hp e He). unfold processed in *.
        rewrite eqb_sym in E.
        rewrite (existsb_eqb_trans rid (Event.id e) (ids_of w) E Hp) in Hseen.
        discriminate.
      * intros e He. unfold processed, ids_of. cbn. rewrite existsb_app.
        apply in_app_or in He. destruct He as [He | [<- | []]].
        -- specialize (Hp e He). unfold processed, ids_of in Hp. rewrite Hp.
           reflexivity.
        -- cbn. rewrite (eqb_refl rid Hh). rewrite orb_true_r. reflexivity.
      * intros e He. apply in_app_or in He. destruct He as [He | [<- | []]].
        -- apply Hn, He.
        -- cbn [Event.id conversation_event].
           destruct (processed rid w0) eqn:E0; [| reflexivity].
           apply Hg in E0. congruence.
Qed.

(** After [process_webhook_data], the live messages followed by the new
    events have pairwise different ids, all processed. *)
Lemma process_webhook_data_distinct w evs w1 :
  live_ids_distinct w ->
  process_webhook_data w = (Ret evs, w1) ->
  live_of w1 = live_of w
  /\ distinct (map Event.id (live_of w1 ++ evs)) = true
  /\ forall e, In e (live_of w1 ++ evs) -> processed (Event.id e) w1 = true.
Proof.
  intros [Hd Hp] E.
  assert (Hg1 : ids_grow w w1 /\ live_of w1 = live_of w).
  { pose proof (keeps_process_webhook_data
                  (fun a b => ids_grow a b /\ live_of b = live_of a)) as K.
    assert (K' : ids_grow w (snd (process_webhook_data w))
                 /\ live_of (snd (process_webhook_data w)) = live_of w).
    { apply K.
      - intros a. split; [apply ids_grow_refl | reflexivity].
      - intros a b c [A1 A2] [B1 B2].
        split; [eapply ids_grow_trans; eassumption | congruence].
      - intros a. split; [apply ids_grow_same |]; reflexivity.
      - intros f a. split; [apply ids_grow_same |]; reflexivity.
      - intros v a. split; [apply ids_grow_append | reflexivity]. }
    rewrite E in K'. exact K'. }
  destruct Hg1 as [Hg1 Hl1]. split; [exact Hl1 |].
  assert (Hlive : forall e, In e (live_of w1) -> processed (Event.id e) w1 = true).
  { intros e He. rewrite Hl1 in He. apply Hg1, Hp, He. }
  rewrite process_webhook_data_eq in E.
  assert (Hnone : evs = [] ->
            distinct (map Event.id (live_of w1 ++ evs)) = true
            /\ forall e, In e (live_of w1 ++ evs) -> processed (Event.id e) w1 = true).
  { intros ->. rewrite app_nil_r, Hl1. split; [exact Hd |].
    rewrite <- Hl1. exact Hlive. }
  destruct (requests_of w) as [| r rs];
    [inversion E; subst; apply Hnone; reflexivity |].
  destruct (for_collect (r :: rs) [] process_request w) as [[new | ex] w'] eqn:Hrun;
    inversion E; subst; [| apply Hnone; reflexivity].
  match type of Hrun with
  | _ = (Ret ?new, ?x) =>
      destruct (collect_distinct w (r :: rs) [] w new x (ids_grow_refl w) eq_refl)
        as [G1 [G2 [G3 [G4 G5]]]]; try (intros ? []); [exact Hrun |]
  end.
  split.
  - rewrite map_app. apply distinct_app.
    split; [rewrite Hl1; exact Hd |]. split; [exact G3 |].
    intros x Hx.
    destruct (existsb (Py.eqb x) (map Event.id evs)) eqn:Ex;
      [| first [reflexivity | exact Ex]].
    apply existsb_exists in Ex. destruct Ex as [y [Hy Hxy]].
    apply in_map_iff in Hy. destruct Hy as [e [<- He]].
    apply in_map_iff in Hx. destruct Hx as [l [<- Hlv]].
    rewrite Hl1 in Hlv. specialize (Hp l Hlv). unfold processed in Hp.
    rewrite eqb_sym in Hxy.
    pose proof (existsb_eqb_trans _ _ _ Hxy Hp) as Hc.
    fold (processed (Event.id e) w) in Hc. rewrite (G5 e He) in Hc. discriminate.
  - intros e He. apply in_app_or in He. destruct He as [He | He].
    + apply Hlive, He.
    + unfold processed, ids_of in *. cbn. apply (G4 e He).
Qed.

Lemma live_ids_same w w' :
  conversation_manager w' = conversation_manager w ->
  preserved live_ids_distinct w w'.
Proof.
  intros E H. unfold live_ids_distinct, live_of, processed, ids_of in *.
  rewrite E. exact H.
Qed.

Lemma live_ids_sweep now w w' :
  live_of w' = unexpired now (live_of w) ->
  ids_of w' = ids_of w ->
  preserved live_ids_distinct w w'.
Proof.
  intros Hl Hi [Hd Hp]. unfold live_ids_distinct, processed in *. rewrite Hl, Hi.
  split; [apply distinct_filter; exact Hd |].
  intros e He. apply unexpired_In in He. apply Hp. tauto.
Qed.

Lemma live_ids_send websocket m :
  keeps (preserved live_ids_distinct) (send_text websocket m).
Proof.
  intros w. unfold send_text. destruct (send_fails w websocket);
    apply live_ids_same; reflexivity.
Qed.

Lemma live_ids_get : keeps (preserved live_ids_distinct) get_live_messages.
Proof.
  intros w. rewrite get_live_messages_eq. cbn [snd].
  apply (live_ids_sweep (clock w 0%nat)); reflexivity.
Qed.

Lemma live_ids_enqueue request_data :
  keeps (preserved live_ids_distinct) (add_live_request request_data).
Proof.
  intros w H. unfold add_live_request, bind, modify, lift.
  destruct (PyOps.slice_ok _) as [[] | e]; exact H.
Qed.

Lemma preserved_refl P w : preserved P w w.
Proof. intros H. exact H. Qed.

Lemma preserved_trans P a b c : preserved P a b -> preserved P b c -> preserved P a c.
Proof. intros Hab Hbc H. apply Hbc, Hab, H. Qed.

Lemma live_ids_poll w : preserved live_ids_distinct w (perform Poll w).
Proof.
  intros H. destruct (process_webhook_data w) as [r w1] eqn:E.
  destruct (process_webhook_data_returns w) as [evs Hevs].
  rewrite E in Hevs. cbn [fst] in Hevs. subst r.
  destruct (process_webhook_data_distinct w evs w1 H E) as [Hl [Hd Hp]].
  destruct evs as [| msg rest].
  - pose proof (poll_no_news_manager w w1 E) as Hcm.
    rewrite app_nil_r in Hd, Hp.
    unfold live_ids_distinct, live_of, processed, ids_of in *. rewrite Hcm. cbn.
    split; [apply distinct_filter; exact Hd |].
    intros e He. apply unexpired_In in He. apply Hp. tauto.
  - assert (H2 : live_ids_distinct (snd (add_live_messages (msg :: rest) w1))).
    { destruct (add_live_messages_shape (msg :: rest) w1) as [k [Hshape _]].
      assert (Hids : ids_of (snd (add_live_messages (msg :: rest) w1)) = ids_of w1).
      { apply (keeps_add_live_messages (fun a b => ids_of b = ids_of a));
          try (unfold keeps; intros; reflexivity).
        intros a b c A B. congruence. }
      unfold live_ids_distinct, processed. rewrite Hshape, Hids.
      split; [apply distinct_filter; exact Hd |].
      intros e He. apply unexpired_In in He. apply Hp. tauto. }
    assert (Hstay : preserved live_ids_distinct
                      (snd (add_live_messages (msg :: rest) w1)) (perform Poll w)).
    { apply keeps_processing_task_admitted;
        first [ exact E | exact (preserved_refl live_ids_distinct)
              | exact (preserved_trans live_ids_distinct)
              | exact live_ids_send | exact live_ids_get
              | unfold keeps; intros; apply live_ids_same; reflexivity ]. }
    apply Hstay. exact H2.
Qed.

(** X12.  The live messages never hold two events with the same id, and
    every id among them is in the set of processed ids: this holds at the
    start and is kept by every action of the event loop, so every snapshot
    a read returns has pairwise different ids. *)
Theorem live_ids_stay_distinct schedule w :
  live_ids_distinct w ->
  live_ids_distinct (run schedule w)
  /\ forall snap,
       fst (get_live_messages_endpoint (run schedule w)) = Ret snap ->
       distinct (map Event.id snap) = true.
Proof.
  intros H.
  assert (H' : live_ids_distinct (run schedule w)).
  { revert H. apply (actions_run (preserved live_ids_distinct));
      first [ exact (preserved_refl live_ids_distinct)
            | exact (preserved_trans live_ids_distinct)
            | exact live_ids_send | exact live_ids_get | exact live_ids_enqueue
            | exact live_ids_poll
            | unfold keeps; intros; apply live_ids_same; reflexivity ]. }
  split; [exact H' |].
  intros snap Hs. rewrite get_live_messages_endpoint_eq in Hs.
  inversion Hs; subst. apply distinct_filter. apply H'.
Qed.

End LiveIds.

(** ** More on admission and the stats *)

Section Batches.

Context {RT : Runtime}.

Lemma collect_admits requests :
  forall ids acc w,
    map (fun r => Py.lookup r "id") requests = map Some ids ->
    forallb Py.hashable ids = true ->
    exists evs w',
      for_collect requests acc process_request w = (Ret (acc ++ evs), w')
      /\ map Event.id evs = admitted_ids (ids_of w) ids
      /\ ids_of w' = ids_of w ++ map Event.id evs
      /\ live_of w' = live_of w
      /\ stats (conversation_manager w') = stats (conversation_manager w).
Proof.
  induction requests as [| r rs IH]; intros ids acc w Hids Hh.
  - destruct ids; [| discriminate]. exists [], w. cbn.
    rewrite !app_nil_r. auto.
  - destruct ids as [| i ids]; [discriminate |].
    cbn [map] in Hids. injection Hids as Hi Hrest.
    cbn [forallb] in Hh. apply andb_prop in Hh. destruct Hh as [Hhi Hh].
    cbn [for_collect]. unfold bind at 1. rewrite process_request_eq.
    unfold Py.get. rewrite Hi. cbn zeta.
    rewrite (set_mem_processed i w Hhi). unfold processed. cbn [admitted_ids].
    destruct (existsb (Py.eqb i) (ids_of w)) eqn:Hseen.
    + destruct (IH ids acc (tick_clock w) Hrest Hh) as [evs [w' [E H]]].
      exists evs, w'. rewrite E. split; [reflexivity | exact H].
    + match goal with
      | |- context [for_collect rs ?a process_request ?x] =>
          destruct (IH ids a x Hrest Hh) as [evs [w' [E [H1 [H2 [H3 H4]]]]]]
      end.
      eexists (_ :: evs), w'. rewrite E, <- app_assoc.
      split; [reflexivity |].
      split; [cbn [map Event.id conversation_event]; f_equal; exact H1 |].
      split; [rewrite H2; unfold ids_of; cbn; rewrite <- app_assoc; reflexivity |].
      split; [exact H3 | exact H4].
Qed.

(** X13.  On a queue of requests that all carry an id with a hash,
    [process_webhook_data] admits, in the order of arrival, exactly the first
    request of every id not processed before; it adds those ids to the
    processed ids, in that order, clears the queue, and touches neither the
    live messages nor the stats. *)
Theorem process_webhook_data_admits_first w ids :
  map (fun r => Py.lookup r "id") (requests_of w) = map Some ids ->
  forallb Py.hashable ids = true ->
  exists evs,
    fst (process_webhook_data w) = Ret evs
    /\ map Event.id evs = admitted_ids (ids_of w) ids
    /\ ids_of (snd (process_webhook_data w)) = ids_of w ++ map Event.id evs
    /\ requests_of (snd (process_webhook_data w)) = []
    /\ live_of (snd (process_webhook_data w)) = live_of w
    /\ stats (conversation_manager (snd (process_webhook_data w)))
       = stats (conversation_manager w).
Proof.
  intros Hids Hh. rewrite process_webhook_data_eq.
  destruct (requests_of w) as [| r rs] eqn:Hq.
  - destruct ids; [| discriminate]. exists []. cbn.
    rewrite app_nil_r. auto 7.
  - destruct (collect_admits (r :: rs) ids [] w Hids Hh)
      as [evs [w' [E [H1 [H2 [H3 H4]]]]]].
    rewrite E. exists evs. cbn [fst snd app].
    repeat split; assumption.
Qed.

Lemma add_live_messages_stats msg rest w :
  let w' := snd (add_live_messages (msg :: rest) w) in
  Stats.messages_per_minute (stats (conversation_manager w'))
  = Z.of_nat (List.length (unexpired (clock w 0%nat) (live_of w ++ msg :: rest)))
  /\ Stats.last_activity (stats (conversation_manager w'))
     = Some (isoformat (clock w 1%nat)).
Proof.
  unfold add_live_messages, live_of, bind, modify_stats, modify, datetime_now,
    gets, lift, ret.
  cbn -[response_times_of Float.truediv Float.round2 Z.of_nat unexpired].
  destruct (response_times_of (msg :: rest)) as [[| z l] | e];
    try (split; reflexivity).
  cbn -[Float.truediv Float.round2 Z.of_nat sum unexpired].
  destruct (Float.truediv _ _) as [mean | e]; try (split; reflexivity).
  cbn -[Float.round2 Z.of_nat unexpired].
  destruct (Float.round2 mean); split; reflexivity.
Qed.

(** X14.  After [add_live_messages] of a batch that is not empty,
    [messages_per_minute] is the number of live messages at that moment,
    [last_activity] is the time of the call, and every live message is
    unexpired at the reading of the sweep; this holds whether the call
    returns or raises.  An empty batch changes no stat. *)
Theorem add_live_messages_gauge messages w :
  let w' := snd (add_live_messages messages w) in
  (forall e, In e (live_of w') -> clock w 0%nat < Event.expires_at e)
  /\ match messages with
     | [] => stats (conversation_manager w') = stats (conversation_manager w)
     | _ :: _ =>
         Stats.messages_per_minute (stats (conversation_manager w'))
         = Z.of_nat (List.length (live_of w'))
         /\ Stats.last_activity (stats (conversation_manager w'))
            = Some (isoformat (clock w 1%nat))
     end.
Proof.
  intros w'. unfold w'.
  destruct (add_live_messages_shape messages w) as [k [Hl _]].
  split.
  - intros e He. rewrite Hl in He. apply unexpired_In in He. tauto.
  - destruct messages as [| msg rest].
    + unfold add_live_messages, bind, modify_stats, modify, datetime_now, ret.
      cbn. rewrite Z.add_0_r. destruct (stats (conversation_manager w)).
      reflexivity.
    + rewrite Hl. apply add_live_messages_stats.
Qed.

End Batches.

(** ** An endpoint whose send raises *)

Section EndpointFailure.

Context {RT : Runtime}.

Lemma endpoint_fails_eq w websocket :
  send_fails w websocket = true ->
  endpoints w websocket <> Closed ->
  exists m w1,
    perform (Endpoint websocket) w
    = set_endpoint websocket Closed
        (snd (disconnect websocket (log_send (websocket, m, false) w1)))
    /\ wire w1 = wire w
    /\ send_fails w1 = send_fails w
    /\ connections_of w1
       = match endpoints w websocket with
         | Connecting => connections_of w ++ [websocket]
         | _ => connections_of w
         end.
Proof.
  intros Hf Hst. cbn [perform].
  unfold websocket_endpoint, bind, gets.
  destruct (endpoints w websocket) eqn:E; [| | | congruence];
    unfold websocket_endpoint_step, try_except, bind, connect, modify,
      get_live_messages, get_stats, bind, datetime_now, modify, gets, send_text, ret;
    cbn [send_fails set_cm tick_clock set_connections]; rewrite Hf;
    eexists; eexists; (split; [reflexivity |]); repeat split; reflexivity.
Qed.

(** X15.  A step of the endpoint of a connection whose send raises closes
    the endpoint and delivers nothing.  The connection ends up
    unregistered: a new connection, registered in that very step, leaves
    the list of connections as it was, and a connection registered once is
    removed with all the others kept.  A closed endpoint does nothing
    more. *)
Theorem endpoint_send_failure_closes w websocket :
  send_fails w websocket = true ->
  endpoints w websocket <> Closed ->
  NoDup (connections_of w) ->
  (endpoints w websocket = Connecting -> ~ In websocket (connections_of w)) ->
  let w' := perform (Endpoint websocket) w in
  endpoints w' websocket = Closed
  /\ received websocket w' = received websocket w
  /\ ~ In websocket (connections_of w')
  /\ (forall c, c <> websocket -> (In c (connections_of w') <-> In c (connections_of w)))
  /\ perform (Endpoint websocket) w' = set_endpoint websocket Closed w'.
Proof.
  intros Hf Hst Hnd Hnew w'.
  destruct (endpoint_fails_eq w websocket Hf Hst) as [m [w1 [E [Hw [_ Hc]]]]].
  assert (Hclosed : endpoints w' websocket = Closed).
  { unfold w'. rewrite E. cbn. rewrite Nat.eqb_refl. reflexivity. }
  assert (Hconn : connections_of w'
                  = if mem websocket (connections_of w1)
                    then remove_first websocket (connections_of w1)
                    else connections_of w1).
  { unfold w'. rewrite E. reflexivity. }
  assert (Hnd1 : NoDup (connections_of w1)).
  { rewrite Hc. destruct (endpoints w websocket) eqn:Es; try exact Hnd.
    apply NoDup_app; [exact Hnd | repeat constructor; intros [] |].
    intros x Hx [<- | []]. exact (Hnew eq_refl Hx). }
  split; [exact Hclosed |]. split.
  { unfold w', received. rewrite E. cbn [wire set_endpoint].
    change (wire (snd (disconnect websocket (log_send (websocket, m, false) w1))))
      with (wire w1 ++ [(websocket, m, false)]).
    rewrite deliveries_app, Hw. unfold deliveries at 2. cbn.
    rewrite andb_false_r. cbn. rewrite app_nil_r. reflexivity. }
  split.
  { rewrite Hconn. destruct (mem websocket (connections_of w1)) eqn:Hm.
    - apply remove_first_NoDup. exact Hnd1.
    - intros Hin. apply mem_In in Hin. congruence. }
  split.
  { intros c Hne. rewrite Hconn.
    assert (Hiff : In c (connections_of w1) <-> In c (connections_of w)).
    { rewrite Hc. destruct (endpoints w websocket); try tauto.
      rewrite in_app_iff. cbn. intuition congruence. }
    rewrite <- Hiff.
    destruct (mem websocket (connections_of w1)); [| tauto].
    split; [apply remove_first_incl | apply remove_first_other; exact Hne]. }
  cbn [perform]. unfold websocket_endpoint, bind, gets. rewrite Hclosed.
  reflexivity.
Qed.

End EndpointFailure.

(** ** From the webhook to the subscribers *)

Section Pipeline.

Context {RT : Runtime}.


Lemma add_live_messages_same_queue messages w :
  requests_of (snd (add_live_messages messages w)) = requests_of w
  /\ ids_of (snd (add_live_messages messages w)) = ids_of w.
Proof.
  apply (keeps_add_live_messages
           (fun a b => requests_of b = requests_of a /\ ids_of b = ids_of a));
    first [ intros; split; reflexivity
          | intros a b c [H1 H2] [H3 H4]; split; congruence
          | unfold keeps; intros; split; reflexivity ].
Qed.



End Pipeline.

(** ** The counter and the processed ids *)

Section Counting.

Context {RT : Runtime}.

Lemma collect_counts requests :
  forall acc w r w',
    for_collect requests acc process_request w = (r, w') ->
    total_of w' = total_of w
    /\ (List.length (ids_of w) <= List.length (ids_of w'))%nat
    /\ forall evs,
         r = Ret evs ->
         (List.length (ids_of w') + List.length acc
          = List.length (ids_of w) + List.length evs)%nat.
Proof.
  induction requests as [| r0 rs IH]; intros acc w r w' Hrun.
  - cbn in Hrun. unfold ret in Hrun. inversion Hrun; subst.
    split; [reflexivity |]. split; [lia |].
    intros evs H. inversion H; subst. lia.
  - cbn [for_collect] in Hrun. unfold bind at 1 in Hrun.
    rewrite process_request_eq in Hrun. cbn zeta in Hrun.
    destruct (Py.set_mem _ _) as [[|] | e].
    + apply (IH acc (tick_clock w) r w' Hrun).
    + match type of Hrun with
      | for_collect rs ?a process_request ?x = _ =>
          destruct (IH a x r w' Hrun) as [H1 [H2 H3]];
          assert (Hx : ids_of x = ids_of w ++ [Py.get r0 "id" (fallback_id (clock w 0%nat))])
            by reflexivity;
          assert (Ht : total_of x = total_of w) by reflexivity
      end.
      rewrite Hx, length_app in H2, H3. cbn [List.length] in H2, H3.
      split; [rewrite H1; exact Ht |]. split; [lia |].
      intros evs Hevs. specialize (H3 evs Hevs). rewrite length_app in H3.
      cbn [List.length] in H3. lia.
    + inversion Hrun; subst. split; [reflexivity |].
      split; [apply Nat.le_refl |].
      intros evs H. discriminate.
Qed.

Lemma process_webhook_data_counts w evs w1 :
  process_webhook_data w = (Ret evs, w1) ->
  total_of w1 = total_of w
  /\ (List.length (ids_of w) + List.length evs <= List.length (ids_of w1))%nat.
Proof.
  rewrite process_webhook_data_eq. intros E.
  destruct (requests_of w) as [| r rs].
  - inversion E; subst. cbn. split; [reflexivity | lia].
  - destruct (for_collect (r :: rs) [] process_request w) as [o w'] eqn:Ec.
    destruct (collect_counts (r :: rs) [] w o w' Ec) as [H1 [H2 H3]].
    destruct o as [new | e]; inversion E; subst.
    + specialize (H3 evs eq_refl). cbn [List.length] in H3.
      split; [exact H1 |]. change (ids_of (set_cm (set_live_requests []) w')) with (ids_of w').
      lia.
    + split; [exact H1 |]. cbn [List.length]. lia.
Qed.

Lemma uncounted_same w w' :
  conversation_manager w' = conversation_manager w -> uncounted w <= uncounted w'.
Proof. intros E. unfold uncounted, total_of, ids_of. rewrite E. lia. Qed.

Lemma uncounted_poll w : uncounted w <= uncounted (perform Poll w).
Proof.
  destruct (process_webhook_data w) as [r w1] eqn:E.
  destruct (process_webhook_data_returns w) as [evs Hevs].
  rewrite E in Hevs. cbn [fst] in Hevs. subst r.
  destruct (process_webhook_data_counts w evs w1 E) as [Ht Hl].
  destruct evs as [| msg rest].
  - pose proof (poll_no_news_manager w w1 E) as Hcm.
    unfold uncounted, total_of, ids_of in *. rewrite Hcm. cbn. cbn in Hl. lia.
  - pose proof (add_live_messages_total (msg :: rest) w1) as Ht2.
    pose proof (add_live_messages_same_queue (msg :: rest) w1) as [_ Hids2].
    assert (Hstay : total_of (perform Poll w)
                    = total_of (snd (add_live_messages (msg :: rest) w1))
                    /\ ids_of (perform Poll w)
                       = ids_of (snd (add_live_messages (msg :: rest) w1))).
    { apply (keeps_processing_task_admitted
               (fun a b => total_of b = total_of a /\ ids_of b = ids_of a));
        first [ exact E
              | intros a b c [A1 A2] [B1 B2]; split; congruence
              | intros; split; reflexivity
              | unfold keeps; intros; split; reflexivity
              | intros ? ? x; unfold send_text; destruct (send_fails x _);
                split; reflexivity ]. }
    destruct Hstay as [Hs1 Hs2]. unfold uncounted.
    rewrite Hs1, Hs2, Ht2, Hids2, Ht. lia.
Qed.

(** X17.  The processed ids that [total_conversations] does not count never
    get fewer, along any schedule of actions: from the start, where both are
    empty, the counter is at most the number of processed ids. *)
Theorem total_within_processed_ids schedule w :
  uncounted w <= uncounted (run schedule w).
Proof.
  apply (actions_run (fun a b => uncounted a <= uncounted b));
    first [ exact uncounted_poll
          | intros; lia
          | unfold keeps; intros; apply Z.le_refl
          | unfold keeps; intros; apply uncounted_same; reflexivity
          | intros ? ? x; unfold send_text; destruct (send_fails x _);
            apply uncounted_same; reflexivity
          | intros ? x; unfold add_live_request, bind, modify, lift;
            destruct (PyOps.slice_ok _) as [[] | ?]; apply uncounted_same; reflexivity ].
Qed.

End Counting.


(** * Scenarios *)





Lemma extract_ai_response_shapes_witness :
  @extract_ai_response Sample.runtime (VDict Sample.choices_X) = VStr "X"
  /\ @extract_ai_response Sample.runtime (VDict [("content", VStr "Y")]) = VStr "Y"
  /\ @extract_ai_response Sample.runtime (VStr "Z") = VStr "Z"
  /\ @extract_ai_response Sample.runtime (VDict [("text", VStr "T")]) = VStr "<str>".
Proof.
  destruct (@extract_ai_response_shapes Sample.runtime "X" "Y" "Z" VNone
              [("text", VStr "T")] [] VNone 0 0 eq_refl eq_refl eq_refl)
    as [H1 [_ [H3 [_ [_ [H6 [H7 _]]]]]]].
  repeat split; assumption.
Defined.

(** Normalizing the request [{"choices": [{"message": {"content": "X"}}]}]
    yields the [ai_response] [""], not ["X"]. *)
Lemma normalization_skips_extraction :
  exists e,
    fst (@process_webhook_data Sample.runtime
           (Sample.start Sample.clock_us [Sample.choices_X]))
    = Ret [e]
    /\ Event.ai_response e = VStr ""
    /\ Event.ai_response e <> VStr "X".
Proof.
  eexists. split; [vm_compute; reflexivity |].
  split; [reflexivity | discriminate].
Qed.

Lemma webhook_conversation_missing_field_witness :
  http_status
    (fst (@webhook_conversation Sample.runtime [("user_message", VStr "hi")]
            (Sample.start Sample.clock_us [])))
  = 500.
Proof.
  destruct (@webhook_conversation_missing_field Sample.runtime
              (Sample.start Sample.clock_us []) [("user_message", VStr "hi")]
              (or_intror eq_refl))
    as [field [_ [_ [_ H]]]].
  exact H.
Defined.





(** ** Scenarios of the further properties *)

(** The failing connection 2 of three leaves the list, and a second
    [disconnect] changes nothing. *)
Lemma disconnect_removes_once_witness :
  ~ In 2%nat (connections_of (snd (disconnect 2%nat Sample.three_sockets)))
  /\ connections_of
       (snd (disconnect 2%nat (snd (disconnect 2%nat Sample.three_sockets))))
     = connections_of (snd (disconnect 2%nat Sample.three_sockets)).
Proof.
  assert (Hnd : NoDup (connections_of Sample.three_sockets)).
  { cbn. repeat constructor; cbn; intuition discriminate. }
  pose proof (disconnect_removes_once 2%nat Sample.three_sockets Hnd) as H.
  cbv zeta in H. destruct H as [H1 [_ [_ [H4 _]]]].
  split; [exact H1 | exact H4].
Defined.

Lemma webhook_conversation_accepts_witness :
  exists enqueued,
    http_status
      (fst (@webhook_conversation Sample.runtime Sample.hi_hello
              (Sample.start Sample.clock_us [])))
    = 200
    /\ requests_of
         (snd (@webhook_conversation Sample.runtime Sample.hi_hello
                 (Sample.start Sample.clock_us [])))
       = [enqueued]
    /\ Py.lookup enqueued "timestamp" = Some (VStr "1700000000500000").
Proof.
  pose proof (@webhook_conversation_accepts Sample.runtime
                (Sample.start Sample.clock_us []) Sample.hi_hello
                eq_refl eq_refl eq_refl) as H.
  cbv zeta in H. destruct H as [enqueued [H1 [H2 [_ [H4 _]]]]].
  exists enqueued. split; [exact H1 |]. split; [exact H2 | exact H4].
Defined.

(** The request with the number for a [user_message] is answered with 500
    and sits in the queue all the same. *)
Lemma webhook_conversation_enqueues_then_fails_witness :
  http_status
    (fst (@webhook_conversation Sample.runtime Cases.numeric_message
            (Sample.start Sample.clock_us [])))
  = 500
  /\ exists enqueued,
       requests_of
         (snd (@webhook_conversation Sample.runtime Cases.numeric_message
                 (Sample.start Sample.clock_us [])))
       = [enqueued]
       /\ Py.lookup enqueued "user_message" = Some (VInt 5).
Proof.
  pose proof (@webhook_conversation_enqueues_then_fails Sample.runtime
                (Sample.start Sample.clock_us []) Cases.numeric_message TypeError
                eq_refl eq_refl eq_refl) as H.
  cbv zeta in H. destruct H as [H1 [enqueued [H2 [H3 _]]]].
  split; [exact H1 |]. exists enqueued. split; [exact H2 | exact H3].
Defined.



(** The request with the latency ["fast"]: its event is live and counted,
    and nothing went out. *)
Lemma poll_aborts_on_bad_latency_witness :
  wire (@perform Sample.runtime Poll (Cases.one_socket [Cases.bad_latency])) = []
  /\ total_of (@perform Sample.runtime Poll (Cases.one_socket [Cases.bad_latency])) = 1.
Proof.
  assert (Hevs : fst (@process_webhook_data Sample.runtime
                        (Cases.one_socket [Cases.bad_latency]))
                 = Ret [Sample.event_of Cases.bad_latency])
    by (vm_compute; reflexivity).
  pose proof (@poll_aborts_on_bad_latency Sample.runtime
                (Cases.one_socket [Cases.bad_latency])
                [Sample.event_of Cases.bad_latency] Hevs eq_refl) as H.
  cbv zeta in H. destruct H as [H1 [_ [_ [H4 _]]]].
  split; [exact H1 | exact H4].
Defined.

(** After the request with the list for an id, a later request with both
    fields is never counted. *)
Lemma unhashable_id_stops_admission_witness :
  stats (conversation_manager
           (@run Sample.runtime
              [PostConversation Cases.list_id; Poll;
               PostConversation Sample.hi_hello; Poll]
              (Sample.start Sample.clock_us [])))
  = stats ConversationManager_init.
Proof.
  pose proof (@unhashable_id_stops_admission Sample.runtime
                (Sample.start Sample.clock_us []) Cases.list_id
                [Poll; PostConversation Sample.hi_hello; Poll]
                eq_refl eq_refl eq_refl) as H.
  cbv zeta in H. destruct H as [_ [_ [_ [H _]]]].
  exact H.
Defined.

Lemma live_ids_stay_distinct_witness :
  live_ids_distinct
    (@run Sample.runtime Sample.interleaved (Sample.start Sample.clock_us [])).
Proof.
  assert (H0 : live_ids_distinct (Sample.start Sample.clock_us [])).
  { split; [reflexivity | intros e []]. }
  exact (proj1 (@live_ids_stay_distinct Sample.runtime Sample.interleaved
                  (Sample.start Sample.clock_us []) H0)).
Defined.

(** Of the requests with the ids a, a and b, the first and the third are
    admitted. *)
Lemma process_webhook_data_admits_first_witness :
  exists evs,
    fst (@process_webhook_data Sample.runtime (Sample.start Sample.clock_us Cases.a_a_b))
    = Ret evs
    /\ map Event.id evs = [VStr "a"; VStr "b"].
Proof.
  destruct (@process_webhook_data_admits_first Sample.runtime
              (Sample.start Sample.clock_us Cases.a_a_b)
              [VStr "a"; VStr "a"; VStr "b"] eq_refl eq_refl)
    as [evs [H1 [H2 _]]].
  exists evs. split; [exact H1 | exact H2].
Defined.

(** The endpoint of the failing connection 2 of three closes at its next
    step, and the connection is unregistered. *)
Lemma endpoint_send_failure_closes_witness :
  endpoints (@perform Sample.runtime (Endpoint 2%nat) Sample.three_sockets) 2%nat
  = Closed
  /\ ~ In 2%nat
         (connections_of (@perform Sample.runtime (Endpoint 2%nat) Sample.three_sockets)).
Proof.
  assert (Hnd : NoDup (connections_of Sample.three_sockets)).
  { cbn. repeat constructor; cbn; intuition discriminate. }
  assert (Hst : endpoints Sample.three_sockets 2%nat <> Closed) by discriminate.
  assert (Hnew : endpoints Sample.three_sockets 2%nat = Connecting ->
                 ~ In 2%nat (connections_of Sample.three_sockets))
    by discriminate.
  pose proof (@endpoint_send_failure_closes Sample.runtime Sample.three_sockets 2%nat
                eq_refl Hst Hnd Hnew) as H.
  cbv zeta in H. destruct H as [H1 [_ [H3 _]]].
  split; [exact H1 | exact H3].
Defined.

